(** * Refract documentation site: route tables, sidebar and site configuration

    The repository holds the static data of a Docusaurus site: generated
    route tables ([.docusaurus/routes.js] and other versions of it), the
    sidebar configuration [sidebars.js], two variants of
    [docusaurus.config.js], the Markdown corpus, the React components of
    the home page and a script that refreshes the favicon.  This development
    embeds them as they are written and checks the structural properties the
    site's navigation relies on. *)

From Stdlib Require Import Ascii String.
From stdpp Require Import base option list strings gmap.

Local Open Scope string_scope.
Local Open Scope list_scope.
Local Open Scope nat_scope.

(** ** Route tables *)

(** [ComponentCreator(path, hash)]: an opaque reference to a bundled renderer.
    The wildcard record calls it with the path alone. *)
Record ComponentRef : Type := ComponentCreator {
  cc_path : string;
  cc_hash : option string
}.

(** A route record.  [exact], [sidebar] and [routes] are optional keys of the
    object literal: an absent key is [None]. *)
#[warnings="-register-all"] Inductive RouteNode : Type := mkRouteNode {
  path : string;
  component : ComponentRef;
  exact : option bool;
  sidebar : option string;
  routes : option (list RouteNode)
}.

(** The default export of [refract-docs/.docusaurus/routes.js]. *)
Definition routes_table : list RouteNode := [
  {| path := "/blog"; component := ComponentCreator "/blog" (Some "e35");
     exact := Some true; sidebar := None; routes := None |};
  {| path := "/blog/archive"; component := ComponentCreator "/blog/archive" (Some "182");
     exact := Some true; sidebar := None; routes := None |};
  {| path := "/blog/introducing-refract"; component := ComponentCreator "/blog/introducing-refract" (Some "261");
     exact := Some true; sidebar := None; routes := None |};
  {| path := "/blog/performance-optimization-guide"; component := ComponentCreator "/blog/performance-optimization-guide" (Some "360");
     exact := Some true; sidebar := None; routes := None |};
  {| path := "/blog/tags"; component := ComponentCreator "/blog/tags" (Some "287");
     exact := Some true; sidebar := None; routes := None |};
  {| path := "/blog/tags/advanced"; component := ComponentCreator "/blog/tags/advanced" (Some "e70");
     exact := Some true; sidebar := None; routes := None |};
  {| path := "/blog/tags/announcement"; component := ComponentCreator "/blog/tags/announcement" (Some "3d6");
     exact := Some true; sidebar := None; routes := None |};
  {| path := "/blog/tags/best-practices"; component := ComponentCreator "/blog/tags/best-practices" (Some "699");
     exact := Some true; sidebar := None; routes := None |};
  {| path := "/blog/tags/javascript"; component := ComponentCreator "/blog/tags/javascript" (Some "fcb");
     exact := Some true; sidebar := None; routes := None |};
  {| path := "/blog/tags/optimization"; component := ComponentCreator "/blog/tags/optimization" (Some "09c");
     exact := Some true; sidebar := None; routes := None |};
  {| path := "/blog/tags/performance"; component := ComponentCreator "/blog/tags/performance" (Some "93a");
     exact := Some true; sidebar := None; routes := None |};
  {| path := "/blog/tags/reactive"; component := ComponentCreator "/blog/tags/reactive" (Some "390");
     exact := Some true; sidebar := None; routes := None |};
  {| path := "/blog/tags/ui"; component := ComponentCreator "/blog/tags/ui" (Some "1e9");
     exact := Some true; sidebar := None; routes := None |};
  {| path := "/search"; component := ComponentCreator "/search" (Some "822");
     exact := Some true; sidebar := None; routes := None |};
  {| path := "/docs"; component := ComponentCreator "/docs" (Some "008");
     exact := None; sidebar := None;
     routes := Some [
      {| path := "/docs"; component := ComponentCreator "/docs" (Some "792");
         exact := None; sidebar := None;
         routes := Some [
          {| path := "/docs"; component := ComponentCreator "/docs" (Some "2a7");
             exact := None; sidebar := None;
             routes := Some [
              {| path := "/docs/advanced/performance"; component := ComponentCreator "/docs/advanced/performance" (Some "cef");
                 exact := Some true; sidebar := None; routes := None |};
              {| path := "/docs/advanced/testing"; component := ComponentCreator "/docs/advanced/testing" (Some "7ad");
                 exact := Some true; sidebar := None; routes := None |};
              {| path := "/docs/api"; component := ComponentCreator "/docs/api" (Some "a3f");
                 exact := Some true; sidebar := None; routes := None |};
              {| path := "/docs/api/createApp"; component := ComponentCreator "/docs/api/createApp" (Some "090");
                 exact := Some true; sidebar := Some "tutorialSidebar"; routes := None |};
              {| path := "/docs/api/createComponent"; component := ComponentCreator "/docs/api/createComponent" (Some "e73");
                 exact := Some true; sidebar := Some "tutorialSidebar"; routes := None |};
              {| path := "/docs/api/createOptic"; component := ComponentCreator "/docs/api/createOptic" (Some "ae2");
                 exact := Some true; sidebar := Some "tutorialSidebar"; routes := None |};
              {| path := "/docs/api/overview"; component := ComponentCreator "/docs/api/overview" (Some "211");
                 exact := Some true; sidebar := Some "tutorialSidebar"; routes := None |};
              {| path := "/docs/api/useEffect"; component := ComponentCreator "/docs/api/useEffect" (Some "a6d");
                 exact := Some true; sidebar := Some "tutorialSidebar"; routes := None |};
              {| path := "/docs/api/useFlash"; component := ComponentCreator "/docs/api/useFlash" (Some "3ce");
                 exact := Some true; sidebar := Some "tutorialSidebar"; routes := None |};
              {| path := "/docs/api/useLens"; component := ComponentCreator "/docs/api/useLens" (Some "5c2");
                 exact := Some true; sidebar := Some "tutorialSidebar"; routes := None |};
              {| path := "/docs/api/useOptic"; component := ComponentCreator "/docs/api/useOptic" (Some "6b0");
                 exact := Some true; sidebar := Some "tutorialSidebar"; routes := None |};
              {| path := "/docs/api/useRefraction"; component := ComponentCreator "/docs/api/useRefraction" (Some "a76");
                 exact := Some true; sidebar := Some "tutorialSidebar"; routes := None |};
              {| path := "/docs/concepts/components"; component := ComponentCreator "/docs/concepts/components" (Some "749");
                 exact := Some true; sidebar := Some "tutorialSidebar"; routes := None |};
              {| path := "/docs/concepts/effects"; component := ComponentCreator "/docs/concepts/effects" (Some "4d4");
                 exact := Some true; sidebar := Some "tutorialSidebar"; routes := None |};
              {| path := "/docs/concepts/lenses"; component := ComponentCreator "/docs/concepts/lenses" (Some "d44");
                 exact := Some true; sidebar := Some "tutorialSidebar"; routes := None |};
              {| path := "/docs/concepts/optics"; component := ComponentCreator "/docs/concepts/optics" (Some "635");
                 exact := Some true; sidebar := Some "tutorialSidebar"; routes := None |};
              {| path := "/docs/concepts/refractions"; component := ComponentCreator "/docs/concepts/refractions" (Some "319");
                 exact := Some true; sidebar := Some "tutorialSidebar"; routes := None |};
              {| path := "/docs/concepts/state-management"; component := ComponentCreator "/docs/concepts/state-management" (Some "781");
                 exact := Some true; sidebar := None; routes := None |};
              {| path := "/docs/contributing"; component := ComponentCreator "/docs/contributing" (Some "069");
                 exact := Some true; sidebar := Some "tutorialSidebar"; routes := None |};
              {| path := "/docs/getting-started"; component := ComponentCreator "/docs/getting-started" (Some "2a1");
                 exact := Some true; sidebar := Some "tutorialSidebar"; routes := None |};
              {| path := "/docs/installation"; component := ComponentCreator "/docs/installation" (Some "176");
                 exact := Some true; sidebar := None; routes := None |};
              {| path := "/docs/intro"; component := ComponentCreator "/docs/intro" (Some "61d");
                 exact := Some true; sidebar := Some "tutorialSidebar"; routes := None |};
              {| path := "/docs/tutorials/animation-basics"; component := ComponentCreator "/docs/tutorials/animation-basics" (Some "270");
                 exact := Some true; sidebar := Some "tutorialSidebar"; routes := None |};
              {| path := "/docs/tutorials/counter-app"; component := ComponentCreator "/docs/tutorials/counter-app" (Some "680");
                 exact := Some true; sidebar := Some "tutorialSidebar"; routes := None |};
              {| path := "/docs/tutorials/getting-started"; component := ComponentCreator "/docs/tutorials/getting-started" (Some "1ff");
                 exact := Some true; sidebar := None; routes := None |};
              {| path := "/docs/tutorials/global-theme"; component := ComponentCreator "/docs/tutorials/global-theme" (Some "a07");
                 exact := Some true; sidebar := Some "tutorialSidebar"; routes := None |};
              {| path := "/docs/tutorials/todo-list"; component := ComponentCreator "/docs/tutorials/todo-list" (Some "447");
                 exact := Some true; sidebar := Some "tutorialSidebar"; routes := None |}
             ] |}
         ] |}
     ] |};
  {| path := "/"; component := ComponentCreator "/" (Some "2e1");
     exact := Some true; sidebar := None; routes := None |};
  {| path := "*"; component := ComponentCreator "*" None;
     exact := None; sidebar := None; routes := None |}
].

(** The default export of the second [routes.js] committed with the
    repository; it also lists the pages of the site template. *)
Definition routes_table_variant : list RouteNode := [
  {| path := "/blog"; component := ComponentCreator "/blog" (Some "04d");
     exact := Some true; sidebar := None; routes := None |};
  {| path := "/blog/archive"; component := ComponentCreator "/blog/archive" (Some "182");
     exact := Some true; sidebar := None; routes := None |};
  {| path := "/blog/authors"; component := ComponentCreator "/blog/authors" (Some "0b7");
     exact := Some true; sidebar := None; routes := None |};
  {| path := "/blog/authors/all-sebastien-lorber-articles"; component := ComponentCreator "/blog/authors/all-sebastien-lorber-articles" (Some "4a1");
     exact := Some true; sidebar := None; routes := None |};
  {| path := "/blog/authors/yangshun"; component := ComponentCreator "/blog/authors/yangshun" (Some "a68");
     exact := Some true; sidebar := None; routes := None |};
  {| path := "/blog/first-blog-post"; component := ComponentCreator "/blog/first-blog-post" (Some "89a");
     exact := Some true; sidebar := None; routes := None |};
  {| path := "/blog/introducing-refract"; component := ComponentCreator "/blog/introducing-refract" (Some "261");
     exact := Some true; sidebar := None; routes := None |};
  {| path := "/blog/long-blog-post"; component := ComponentCreator "/blog/long-blog-post" (Some "9ad");
     exact := Some true; sidebar := None; routes := None |};
  {| path := "/blog/mdx-blog-post"; component := ComponentCreator "/blog/mdx-blog-post" (Some "e9f");
     exact := Some true; sidebar := None; routes := None |};
  {| path := "/blog/performance-optimization-guide"; component := ComponentCreator "/blog/performance-optimization-guide" (Some "360");
     exact := Some true; sidebar := None; routes := None |};
  {| path := "/blog/tags"; component := ComponentCreator "/blog/tags" (Some "287");
     exact := Some true; sidebar := None; routes := None |};
  {| path := "/blog/tags/advanced"; component := ComponentCreator "/blog/tags/advanced" (Some "e70");
     exact := Some true; sidebar := None; routes := None |};
  {| path := "/blog/tags/announcement"; component := ComponentCreator "/blog/tags/announcement" (Some "3d6");
     exact := Some true; sidebar := None; routes := None |};
  {| path := "/blog/tags/best-practices"; component := ComponentCreator "/blog/tags/best-practices" (Some "699");
     exact := Some true; sidebar := None; routes := None |};
  {| path := "/blog/tags/docusaurus"; component := ComponentCreator "/blog/tags/docusaurus" (Some "704");
     exact := Some true; sidebar := None; routes := None |};
  {| path := "/blog/tags/facebook"; component := ComponentCreator "/blog/tags/facebook" (Some "858");
     exact := Some true; sidebar := None; routes := None |};
  {| path := "/blog/tags/hello"; component := ComponentCreator "/blog/tags/hello" (Some "299");
     exact := Some true; sidebar := None; routes := None |};
  {| path := "/blog/tags/hola"; component := ComponentCreator "/blog/tags/hola" (Some "00d");
     exact := Some true; sidebar := None; routes := None |};
  {| path := "/blog/tags/javascript"; component := ComponentCreator "/blog/tags/javascript" (Some "fcb");
     exact := Some true; sidebar := None; routes := None |};
  {| path := "/blog/tags/optimization"; component := ComponentCreator "/blog/tags/optimization" (Some "09c");
     exact := Some true; sidebar := None; routes := None |};
  {| path := "/blog/tags/performance"; component := ComponentCreator "/blog/tags/performance" (Some "93a");
     exact := Some true; sidebar := None; routes := None |};
  {| path := "/blog/tags/reactive"; component := ComponentCreator "/blog/tags/reactive" (Some "390");
     exact := Some true; sidebar := None; routes := None |};
  {| path := "/blog/tags/ui"; component := ComponentCreator "/blog/tags/ui" (Some "1e9");
     exact := Some true; sidebar := None; routes := None |};
  {| path := "/blog/welcome"; component := ComponentCreator "/blog/welcome" (Some "d2b");
     exact := Some true; sidebar := None; routes := None |};
  {| path := "/markdown-page"; component := ComponentCreator "/markdown-page" (Some "3d7");
     exact := Some true; sidebar := None; routes := None |};
  {| path := "/search"; component := ComponentCreator "/search" (Some "822");
     exact := Some true; sidebar := None; routes := None |};
  {| path := "/docs"; component := ComponentCreator "/docs" (Some "a56");
     exact := None; sidebar := None;
     routes := Some [
      {| path := "/docs"; component := ComponentCreator "/docs" (Some "927");
         exact := None; sidebar := None;
         routes := Some [
          {| path := "/docs"; component := ComponentCreator "/docs" (Some "2a1");
             exact := None; sidebar := None;
             routes := Some [
              {| path := "/docs/advanced/performance"; component := ComponentCreator "/docs/advanced/performance" (Some "cef");
                 exact := Some true; sidebar := None; routes := None |};
              {| path := "/docs/advanced/testing"; component := ComponentCreator "/docs/advanced/testing" (Some "7ad");
                 exact := Some true; sidebar := None; routes := None |};
              {| path := "/docs/api"; component := ComponentCreator "/docs/api" (Some "a3f");
                 exact := Some true; sidebar := None; routes := None |};
              {| path := "/docs/api/createApp"; component := ComponentCreator "/docs/api/createApp" (Some "090");
                 exact := Some true; sidebar := Some "tutorialSidebar"; routes := None |};
              {| path := "/docs/api/createComponent"; component := ComponentCreator "/docs/api/createComponent" (Some "e73");
                 exact := Some true; sidebar := Some "tutorialSidebar"; routes := None |};
              {| path := "/docs/api/createOptic"; component := ComponentCreator "/docs/api/createOptic" (Some "ae2");
                 exact := Some true; sidebar := Some "tutorialSidebar"; routes := None |};
              {| path := "/docs/api/overview"; component := ComponentCreator "/docs/api/overview" (Some "211");
                 exact := Some true; sidebar := Some "tutorialSidebar"; routes := None |};
              {| path := "/docs/api/useEffect"; component := ComponentCreator "/docs/api/useEffect" (Some "a6d");
                 exact := Some true; sidebar := Some "tutorialSidebar"; routes := None |};
              {| path := "/docs/api/useFlash"; component := ComponentCreator "/docs/api/useFlash" (Some "3ce");
                 exact := Some true; sidebar := Some "tutorialSidebar"; routes := None |};
              {| path := "/docs/api/useLens"; component := ComponentCreator "/docs/api/useLens" (Some "5c2");
                 exact := Some true; sidebar := Some "tutorialSidebar"; routes := None |};
              {| path := "/docs/api/useOptic"; component := ComponentCreator "/docs/api/useOptic" (Some "6b0");
                 exact := Some true; sidebar := Some "tutorialSidebar"; routes := None |};
              {| path := "/docs/api/useRefraction"; component := ComponentCreator "/docs/api/useRefraction" (Some "a76");
                 exact := Some true; sidebar := Some "tutorialSidebar"; routes := None |};
              {| path := "/docs/concepts/components"; component := ComponentCreator "/docs/concepts/components" (Some "749");
                 exact := Some true; sidebar := Some "tutorialSidebar"; routes := None |};
              {| path := "/docs/concepts/effects"; component := ComponentCreator "/docs/concepts/effects" (Some "4d4");
                 exact := Some true; sidebar := Some "tutorialSidebar"; routes := None |};
              {| path := "/docs/concepts/lenses"; component := ComponentCreator "/docs/concepts/lenses" (Some "d44");
                 exact := Some true; sidebar := Some "tutorialSidebar"; routes := None |};
              {| path := "/docs/concepts/optics"; component := ComponentCreator "/docs/concepts/optics" (Some "635");
                 exact := Some true; sidebar := Some "tutorialSidebar"; routes := None |};
              {| path := "/docs/concepts/refractions"; component := ComponentCreator "/docs/concepts/refractions" (Some "319");
                 exact := Some true; sidebar := Some "tutorialSidebar"; routes := None |};
              {| path := "/docs/concepts/state-management"; component := ComponentCreator "/docs/concepts/state-management" (Some "781");
                 exact := Some true; sidebar := None; routes := None |};
              {| path := "/docs/contributing"; component := ComponentCreator "/docs/contributing" (Some "069");
                 exact := Some true; sidebar := Some "tutorialSidebar"; routes := None |};
              {| path := "/docs/developers/api-overview"; component := ComponentCreator "/docs/developers/api-overview" (Some "dd6");
                 exact := Some true; sidebar := None; routes := None |};
              {| path := "/docs/developers/authentication"; component := ComponentCreator "/docs/developers/authentication" (Some "fe3");
                 exact := Some true; sidebar := None; routes := None |};
              {| path := "/docs/developers/endpoints"; component := ComponentCreator "/docs/developers/endpoints" (Some "e85");
                 exact := Some true; sidebar := None; routes := None |};
              {| path := "/docs/developers/integration-guide"; component := ComponentCreator "/docs/developers/integration-guide" (Some "a75");
                 exact := Some true; sidebar := None; routes := None |};
              {| path := "/docs/developers/webhooks"; component := ComponentCreator "/docs/developers/webhooks" (Some "7fc");
                 exact := Some true; sidebar := None; routes := None |};
              {| path := "/docs/faqs/general"; component := ComponentCreator "/docs/faqs/general" (Some "10c");
                 exact := Some true; sidebar := None; routes := None |};
              {| path := "/docs/faqs/troubleshooting"; component := ComponentCreator "/docs/faqs/troubleshooting" (Some "a6f");
                 exact := Some true; sidebar := None; routes := None |};
              {| path := "/docs/features/api-access"; component := ComponentCreator "/docs/features/api-access" (Some "8d9");
                 exact := Some true; sidebar := None; routes := None |};
              {| path := "/docs/features/dashboard"; component := ComponentCreator "/docs/features/dashboard" (Some "8d2");
                 exact := Some true; sidebar := None; routes := None |};
              {| path := "/docs/features/realtime-feedback"; component := ComponentCreator "/docs/features/realtime-feedback" (Some "d66");
                 exact := Some true; sidebar := None; routes := None |};
              {| path := "/docs/getting-started"; component := ComponentCreator "/docs/getting-started" (Some "2a1");
                 exact := Some true; sidebar := Some "tutorialSidebar"; routes := None |};
              {| path := "/docs/getting-started/installation"; component := ComponentCreator "/docs/getting-started/installation" (Some "2f7");
                 exact := Some true; sidebar := None; routes := None |};
              {| path := "/docs/getting-started/quick-tour"; component := ComponentCreator "/docs/getting-started/quick-tour" (Some "365");
                 exact := Some true; sidebar := None; routes := None |};
              {| path := "/docs/installation"; component := ComponentCreator "/docs/installation" (Some "176");
                 exact := Some true; sidebar := None; routes := None |};
              {| path := "/docs/intro"; component := ComponentCreator "/docs/intro" (Some "61d");
                 exact := Some true; sidebar := Some "tutorialSidebar"; routes := None |};
              {| path := "/docs/Introduction/faq"; component := ComponentCreator "/docs/Introduction/faq" (Some "864");
                 exact := Some true; sidebar := None; routes := None |};
              {| path := "/docs/Introduction/getting-started"; component := ComponentCreator "/docs/Introduction/getting-started" (Some "166");
                 exact := Some true; sidebar := None; routes := None |};
              {| path := "/docs/Introduction/overview"; component := ComponentCreator "/docs/Introduction/overview" (Some "213");
                 exact := Some true; sidebar := None; routes := None |};
              {| path := "/docs/tutorials/animation-basics"; component := ComponentCreator "/docs/tutorials/animation-basics" (Some "270");
                 exact := Some true; sidebar := Some "tutorialSidebar"; routes := None |};
              {| path := "/docs/tutorials/counter-app"; component := ComponentCreator "/docs/tutorials/counter-app" (Some "680");
                 exact := Some true; sidebar := Some "tutorialSidebar"; routes := None |};
              {| path := "/docs/tutorials/getting-started"; component := ComponentCreator "/docs/tutorials/getting-started" (Some "1ff");
                 exact := Some true; sidebar := None; routes := None |};
              {| path := "/docs/tutorials/global-theme"; component := ComponentCreator "/docs/tutorials/global-theme" (Some "a07");
                 exact := Some true; sidebar := Some "tutorialSidebar"; routes := None |};
              {| path := "/docs/tutorials/todo-list"; component := ComponentCreator "/docs/tutorials/todo-list" (Some "447");
                 exact := Some true; sidebar := Some "tutorialSidebar"; routes := None |}
             ] |}
         ] |}
     ] |};
  {| path := "/"; component := ComponentCreator "/" (Some "2e1");
     exact := Some true; sidebar := None; routes := None |};
  {| path := "*"; component := ComponentCreator "*" None;
     exact := None; sidebar := None; routes := None |}
].

(** The two committed route tables. *)
Definition route_tables : list (list RouteNode) :=
  [routes_table; routes_table_variant].

(** *** Traversals *)

(** The children of a node; a record without a [routes] key has none. *)
Definition children (n : RouteNode) : list RouteNode :=
  default [] (routes n).

(** A node followed by all its descendants, in document order. *)
Fixpoint subtree (n : RouteNode) : list RouteNode :=
  n :: match routes n with
       | Some kids => kids ≫= subtree
       | None => []
       end.

Definition descendants (n : RouteNode) : list RouteNode :=
  children n ≫= subtree.

(** Every record of a table, at any depth. *)
Definition all_nodes (t : list RouteNode) : list RouteNode :=
  t ≫= subtree.

Definition is_exact (n : RouteNode) : bool :=
  match exact n with Some true => true | _ => false end.

(** The leaf records of a table: those carrying [exact: true]. *)
Definition leaf_records (t : list RouteNode) : list RouteNode :=
  filter (λ n, is_exact n = true) (all_nodes t).

(** *** Structural induction on route trees *)

Section RouteNode_induction.
Variable P : RouteNode → Prop.
Hypothesis Hleaf : ∀ p c e s, P (mkRouteNode p c e s None).
Hypothesis Hlayout : ∀ p c e s kids,
  Forall P kids → P (mkRouteNode p c e s (Some kids)).

Fixpoint RouteNode_tree_ind (n : RouteNode) : P n :=
  match n with
  | mkRouteNode p c e s None => Hleaf p c e s
  | mkRouteNode p c e s (Some kids) =>
      Hlayout p c e s kids
        ((fix all (l : list RouteNode) : Forall P l :=
            match l with
            | [] => Forall_nil_2 P
            | k :: l' => Forall_cons_2 P k l' (RouteNode_tree_ind k) (all l')
            end) kids)
  end.
End RouteNode_induction.

(** *** Invariants of the tables, as executable checks *)

(** Shape of one record: without children it is a page and carries
    [exact: true]; with a [routes] array it is a layout and has no [exact]
    key. *)
Definition shape_invariant (n : RouteNode) : Prop :=
  (children n = [] → exact n = Some true) ∧
  (is_Some (routes n) → exact n = None).

Definition shape_ok (n : RouteNode) : bool :=
  match routes n, exact n with
  | None, Some true => true
  | Some (_ :: _), None => true
  | _, _ => false
  end.

Definition is_wildcard (n : RouteNode) : bool := String.eqb (path n) "*".

(** The wildcard record as the tables write it: a path and a component,
    nothing else. *)
Definition bare_record (n : RouteNode) : bool :=
  match routes n, exact n with
  | None, None => true
  | _, _ => false
  end.

(** Every child path extends the path of its parent. *)
Definition children_nested (n : RouteNode) : bool :=
  forallb (λ k, String.prefix (path n) (path k)) (children n).

(** ** Route resolution *)

(** The repository commits the tables only; the router that reads them
    belongs to the site generator.  The resolver below follows the contract
    the specification gives for it. *)

(** Modelled from the spec: the result of the absent route resolver
    (section 4.1): the chain of layout records that wrap the page, from the
    outermost inwards, and the page record itself. *)
Record Match : Type := mkMatch {
  layouts : list RouteNode;
  page : RouteNode
}.

(** Every record of a subtree together with the layouts above it. *)
Fixpoint located (anc : list RouteNode) (n : RouteNode) : list Match :=
  mkMatch anc n :: match routes n with
                   | Some kids => kids ≫= located (anc ++ [n])
                   | None => []
                   end.

Definition placements (t : list RouteNode) : list Match :=
  t ≫= located [].

(** Modelled from the spec: helpers of the matching policy of the absent
    route resolver (section 4.1).  [strip_prefix pat p] is the rest of [p]
    after the prefix [pat], when [pat] is a prefix of [p]. *)
Fixpoint strip_prefix (pat p : string) : option string :=
  match pat with
  | EmptyString => Some p
  | String a pat' =>
      match p with
      | EmptyString => None
      | String b p' => if Ascii.eqb a b then strip_prefix pat' p' else None
      end
  end.

Definition starts_with_slash (s : string) : bool :=
  match s with
  | String c _ => Ascii.eqb c "/"%char
  | EmptyString => false
  end.

Fixpoint ends_with_slash (s : string) : bool :=
  match s with
  | EmptyString => false
  | String c EmptyString => Ascii.eqb c "/"%char
  | String _ s' => ends_with_slash s'
  end.

(** Modelled from the spec: the matching policy of the route resolver
    (section 4.1), which is not part of the repository.  A non-exact node
    matches any path sharing its prefix up to a path segment boundary. *)
Definition matches_prefix (pat p : string) : bool :=
  match strip_prefix pat p with
  | Some rest =>
      String.eqb rest "" || starts_with_slash rest || ends_with_slash pat
  | None => false
  end.

(** Modelled from the spec: whether a node matches a path (section 4.1, of
    the absent resolver).  The wildcard node matches any path, an exact node
    only the identical path, any other node by prefix. *)
Definition accepts (n : RouteNode) (p : string) : bool :=
  if is_wildcard n then true
  else if is_exact n then String.eqb (path n) p
  else matches_prefix (path n) p.

(** Modelled from the spec: the candidate matches of the absent resolver
    (section 4.1), found by descending recursively into the [routes] of every
    matching node down to the matching leaves. *)
Fixpoint matches_under (p : string) (anc : list RouteNode) (n : RouteNode)
  : list Match :=
  match routes n with
  | Some kids =>
      if accepts n p then kids ≫= matches_under p (anc ++ [n]) else []
  | None => if accepts n p then [mkMatch anc n] else []
  end.

(** Modelled from the spec: all candidate matches of a path in a table,
    for the absent resolver of section 4.1, in table order. *)
Definition candidates (t : list RouteNode) (p : string) : list Match :=
  t ≫= matches_under p [].

(** Modelled from the spec: the kind of a match, for the tie-break of the
    absent resolver (section 4.1): the wildcard fallback is the least
    specific, an exact record the most. *)
Definition kind (m : Match) : nat :=
  if is_wildcard (page m) then 0
  else if is_exact (page m) then 2
  else 1.

(** Modelled from the spec: the depth of a match, for the tie-break of the
    absent resolver (section 4.1): the number of layouts around the page. *)
Definition depth (m : Match) : nat := length (layouts m).

(** Modelled from the spec: the tie-break of the absent resolver (section
    4.1): exact matches win over prefix matches, deeper matches over
    shallower ones, and the wildcard only wins when nothing else matches. *)
Definition more_specific (a b : Match) : bool :=
  Nat.ltb (kind b) (kind a) ||
  (Nat.eqb (kind a) (kind b) && Nat.ltb (depth b) (depth a)).

(** Modelled from the spec: one step of the choice among candidates of the
    absent resolver (section 4.1); a later candidate replaces the current
    best only when it is more specific. *)
Definition pick (best : option Match) (m : Match) : option Match :=
  match best with
  | None => Some m
  | Some b => if more_specific m b then Some m else Some b
  end.

(** Modelled from the spec: the route resolver of section 4.1, absent from
    the repository.  It returns the most specific match of a path with its
    chain of layouts; among equally specific matches the first in table
    order is kept. *)
Definition resolve (t : list RouteNode) (p : string) : option Match :=
  foldl pick None (candidates t p).

(** A page record the resolver can reach by its own path: it is a leaf
    other than the wildcard and every layout above it matches its path. *)
Definition reachable (m : Match) : bool :=
  negb (is_wildcard (page m)) && bool_decide (routes (page m) = None) &&
  forallb (λ a, accepts a (path (page m))) (layouts m).

(** The checks on a placement that make resolution deterministic: leaves
    other than the wildcard are exact, exact records are reachable, and a
    wildcard record sits at the top level of the table. *)
Definition well_placed (m : Match) : bool :=
  (if bool_decide (routes (page m) = None)
   then is_wildcard (page m) || is_exact (page m) else true) &&
  (if is_exact (page m) then reachable m else true) &&
  (if is_wildcard (page m) then Nat.eqb (depth m) 0 else true).

(** The paths of the exact records of a table, one per placement. *)
Definition exact_paths (t : list RouteNode) : list string :=
  (λ m, path (page m)) <$> filter (λ m, is_exact (page m) = true) (placements t).

(** A table the resolver handles deterministically: every placement passes
    [well_placed], exact paths are pairwise distinct, and the top level has
    a wildcard record. *)
Definition well_formed_table (t : list RouteNode) : Prop :=
  forallb well_placed (placements t) = true ∧
  NoDup (exact_paths t) ∧
  ∃ w, w ∈ t ∧ is_wildcard w = true ∧ routes w = None.

(** ** Sidebar configuration *)

(** An entry of a sidebar: a bare content identifier, or a category object
    [{type: 'category', label, items}]. *)
#[warnings="-register-all"] Inductive SidebarItem : Type :=
| Doc (id : string)
| Category (label : string) (items : list SidebarItem).

(** [sidebars.tutorialSidebar] of [refract-docs/sidebars.js]. *)
Definition tutorialSidebar : list SidebarItem := [
  Doc "intro";
  Doc "getting-started";
  Category "Core Concepts" [
    Doc "concepts/components";
    Doc "concepts/refractions";
    Doc "concepts/lenses";
    Doc "concepts/optics";
    Doc "concepts/effects"
  ];
  Category "API Reference" [
    Doc "api/overview";
    Doc "api/createApp";
    Doc "api/createComponent";
    Doc "api/useRefraction";
    Doc "api/useEffect";
    Doc "api/useOptic";
    Doc "api/useFlash";
    Doc "api/useLens"
  ];
  Category "Tutorials" [
    Doc "tutorials/counter-app";
    Doc "tutorials/todo-list";
    Doc "tutorials/global-theme";
    Doc "tutorials/animation-basics"
  ];
  Doc "contributing"
].

(** The exported [sidebars] object. *)
Definition sidebars : list (string * list SidebarItem) :=
  [("tutorialSidebar", tutorialSidebar)].

(** The content identifiers at the leaves of an entry, in display order. *)
Fixpoint leaf_ids (it : SidebarItem) : list string :=
  match it with
  | Doc id => [id]
  | Category _ items => items ≫= leaf_ids
  end.

(** The category nodes of an entry, at any depth. *)
Fixpoint categories (it : SidebarItem) : list SidebarItem :=
  match it with
  | Doc _ => []
  | Category label items => Category label items :: (items ≫= categories)
  end.

Section SidebarItem_induction.
Variable P : SidebarItem → Prop.
Hypothesis Hdoc : ∀ id, P (Doc id).
Hypothesis Hcategory : ∀ label items, Forall P items → P (Category label items).

Fixpoint SidebarItem_tree_ind (it : SidebarItem) : P it :=
  match it with
  | Doc id => Hdoc id
  | Category label items =>
      Hcategory label items
        ((fix all (l : list SidebarItem) : Forall P l :=
            match l with
            | [] => Forall_nil_2 P
            | x :: l' => Forall_cons_2 P x l' (SidebarItem_tree_ind x) (all l')
            end) items)
  end.
End SidebarItem_induction.

Definition category_ok (c : SidebarItem) : bool :=
  match c with
  | Doc _ => true
  | Category _ items =>
      negb (bool_decide (items = [])) && bool_decide (NoDup (items ≫= leaf_ids))
  end.

(** *** Sidebar tree walker *)

(** Modelled from the spec: the output of the sidebar tree walker of
    section 4.2, which is not part of the repository: the labels of the
    categories above the leaf, outermost first, and the entries right before
    and right after it in the same [items] list. *)
Record Location : Type := mkLocation {
  ancestors : list string;
  previous : option SidebarItem;
  next : option SidebarItem
}.

(** Modelled from the spec: the immediate siblings of a located leaf, for
    the previous/next navigation of the absent walker (section 4.2). *)
Definition siblings (loc : Location) : list SidebarItem :=
  option_list (previous loc) ++ option_list (next loc).

Section first_found.
Context {A B : Type}.
Variable visit : option A → option A → A → option B.

(** Modelled from the spec: the traversal of the absent sidebar tree
    walker (section 4.2).  It visits the elements of a list in order, each
    with its left and right neighbour, and stops at the first result. *)
Fixpoint first_found (prev : option A) (l : list A) : option B :=
  match l with
  | [] => None
  | x :: rest =>
      match visit prev (head rest) x with
      | Some r => Some r
      | None => first_found (Some x) rest
      end
  end.
End first_found.

(** Modelled from the spec: the sidebar tree walker of section 4.2, which
    is not part of the repository (the site generator renders the sidebar).
    Given a content identifier it returns the path of category labels from
    the root to the matching leaf and the leaf's immediate siblings. *)
Fixpoint walk_item (target : string) (anc : list string)
    (prev next : option SidebarItem) (it : SidebarItem) : option Location :=
  match it with
  | Doc id =>
      if String.eqb id target then Some (mkLocation anc prev next) else None
  | Category label items =>
      first_found (walk_item target (anc ++ [label])) None items
  end.

(** Modelled from the spec: the absent sidebar tree walker of section 4.2,
    applied to a whole sidebar. *)
Definition sidebar_walker (sidebar : list SidebarItem) (target : string)
  : option Location :=
  first_found (walk_item target []) None sidebar.

(** ** Site configuration *)

(** The top-level scalar options of [docusaurus.config.js]; the [presets],
    [plugins] and [themeConfig] objects play no part in what follows and are
    left out.  [trailingSlash] is an optional key. *)
Record Config : Type := mkConfig {
  title : string;
  tagline : string;
  favicon : string;
  url : string;
  baseUrl : string;
  organizationName : string;
  projectName : string;
  onBrokenLinks : string;
  onBrokenMarkdownLinks : string;
  trailingSlash : option bool;
  defaultLocale : string;
  locales : list string
}.

(** The main site configuration. *)
Definition config : Config := {|
  title := "Refract";
  tagline := "A reactive, composable JavaScript framework for building modern UIs";
  favicon := "img/favicon.ico";
  url := "https://refract-docs.netlify.app";
  baseUrl := "/";
  organizationName := "refract-js";
  projectName := "refract";
  onBrokenLinks := "throw";
  onBrokenMarkdownLinks := "warn";
  trailingSlash := None;
  defaultLocale := "en";
  locales := ["en"]
|}.

(** The alternate configuration variant committed with the repository. *)
Definition config_variant : Config := {|
  title := "Refract";
  tagline := "A reactive, composable JavaScript framework for building modern UIs";
  favicon := "img/favicon.ico";
  url := "https://refract-documentation-i7fkgvid5-samuel-bensos-projects.vercel.app";
  baseUrl := "/";
  organizationName := "refract-js";
  projectName := "refract";
  onBrokenLinks := "warn";
  onBrokenMarkdownLinks := "warn";
  trailingSlash := Some false;
  defaultLocale := "en";
  locales := ["en"]
|}.

(** Modelled from the spec: the values the site generator, which is not
    part of the repository, recognises for [onBrokenLinks] (sections 6 and
    7): [throw] fails the build, [warn] logs and continues, [ignore] is
    silent. *)
Inductive ReportingSeverity : Type := Ignore | Warn | Throw.

Definition severity_of_string (s : string) : option ReportingSeverity :=
  if String.eqb s "throw" then Some Throw
  else if String.eqb s "warn" then Some Warn
  else if String.eqb s "ignore" then Some Ignore
  else None.

(** ** Content files and their front-matter *)

(** A YAML value of a front-matter block. *)
#[warnings="-register-all"] Inductive Yaml : Type :=
| YStr (s : string)
| YSeq (elements : list Yaml)
| YMap (entries : list (string * Yaml)).

Definition FrontMatter : Type := list (string * Yaml).

(** Front-matter of the blog post "Introducing Refract". *)
Definition introducing_refract : FrontMatter := [
  ("slug", YStr "introducing-refract");
  ("title", YStr "Introducing Refract - A New Era of Reactive UI Development");
  ("authors", YSeq [
     YMap [("name", YStr "Refract Team");
           ("title", YStr "Core Development Team");
           ("url", YStr "https://github.com/refract-js");
           ("image_url", YStr "/img/logo.svg")]]);
  ("tags", YSeq [YStr "announcement"; YStr "reactive"; YStr "javascript";
                 YStr "ui"])
].

(** Front-matter of [blog/2024-02-28-performance-optimization-guide.md]. *)
Definition performance_optimization_guide : FrontMatter := [
  ("slug", YStr "performance-optimization-guide");
  ("title", YStr "Mastering Performance in Refract - Advanced Optimization Techniques");
  ("authors", YSeq [
     YMap [("name", YStr "Refract Team");
           ("title", YStr "Core Development Team");
           ("url", YStr "https://github.com/refract-js");
           ("image_url", YStr "https://github.com/refract-js.png")]]);
  ("tags", YSeq [YStr "performance"; YStr "optimization";
                 YStr "best-practices"; YStr "advanced"])
].

(** The first value stored under a key of a front-matter block. *)
Fixpoint fm_lookup (key : string) (fm : FrontMatter) : option Yaml :=
  match fm with
  | [] => None
  | (k, v) :: fm' => if String.eqb k key then Some v else fm_lookup key fm'
  end.

Definition slug (fm : FrontMatter) : option string :=
  match fm_lookup "slug" fm with
  | Some (YStr s) => Some s
  | _ => None
  end.

(** Modelled from the spec: the route base of the blog content root, as the
    example of section 8 has it; the generator that sets it is not part of
    the repository. *)
Definition blog_root : string := "/blog".

(** Modelled from the spec: the path the site generator, which is not part
    of the repository, gives to the page of a content file (section 8,
    property 5 and its example).  An absolute slug is the path itself; any
    other slug is placed under the route base of its content root. *)
Definition route_path (root slug : string) : string :=
  if starts_with_slash slug then slug
  else String.append root (String.append "/" slug).

(** Whether a table holds, at its top level, an exact record for a path. *)
Definition has_exact_record (t : list RouteNode) (p : string) : bool :=
  existsb (λ n, String.eqb (path n) p && bool_decide (exact n = Some true)) t.

(** ** The third route table *)

(** The default export of the third [routes.js] committed with the
    repository, generated by a development build: it adds the pages under
    ['/__docusaurus/debug']. *)
Definition routes_table_debug : list RouteNode := [
  {| path := "/__docusaurus/debug"; component := ComponentCreator "/__docusaurus/debug" (Some "a49");
     exact := Some true; sidebar := None; routes := None |};
  {| path := "/__docusaurus/debug/config"; component := ComponentCreator "/__docusaurus/debug/config" (Some "0e7");
     exact := Some true; sidebar := None; routes := None |};
  {| path := "/__docusaurus/debug/content"; component := ComponentCreator "/__docusaurus/debug/content" (Some "1e3");
     exact := Some true; sidebar := None; routes := None |};
  {| path := "/__docusaurus/debug/globalData"; component := ComponentCreator "/__docusaurus/debug/globalData" (Some "659");
     exact := Some true; sidebar := None; routes := None |};
  {| path := "/__docusaurus/debug/metadata"; component := ComponentCreator "/__docusaurus/debug/metadata" (Some "4b8");
     exact := Some true; sidebar := None; routes := None |};
  {| path := "/__docusaurus/debug/registry"; component := ComponentCreator "/__docusaurus/debug/registry" (Some "b50");
     exact := Some true; sidebar := None; routes := None |};
  {| path := "/__docusaurus/debug/routes"; component := ComponentCreator "/__docusaurus/debug/routes" (Some "bfb");
     exact := Some true; sidebar := None; routes := None |};
  {| path := "/blog"; component := ComponentCreator "/blog" (Some "4b7");
     exact := Some true; sidebar := None; routes := None |};
  {| path := "/blog/archive"; component := ComponentCreator "/blog/archive" (Some "f47");
     exact := Some true; sidebar := None; routes := None |};
  {| path := "/blog/introducing-refract"; component := ComponentCreator "/blog/introducing-refract" (Some "e18");
     exact := Some true; sidebar := None; routes := None |};
  {| path := "/blog/performance-optimization-guide"; component := ComponentCreator "/blog/performance-optimization-guide" (Some "39b");
     exact := Some true; sidebar := None; routes := None |};
  {| path := "/blog/tags"; component := ComponentCreator "/blog/tags" (Some "01d");
     exact := Some true; sidebar := None; routes := None |};
  {| path := "/blog/tags/advanced"; component := ComponentCreator "/blog/tags/advanced" (Some "7d4");
     exact := Some true; sidebar := None; routes := None |};
  {| path := "/blog/tags/announcement"; component := ComponentCreator "/blog/tags/announcement" (Some "f19");
     exact := Some true; sidebar := None; routes := None |};
  {| path := "/blog/tags/best-practices"; component := ComponentCreator "/blog/tags/best-practices" (Some "538");
     exact := Some true; sidebar := None; routes := None |};
  {| path := "/blog/tags/javascript"; component := ComponentCreator "/blog/tags/javascript" (Some "27f");
     exact := Some true; sidebar := None; routes := None |};
  {| path := "/blog/tags/optimization"; component := ComponentCreator "/blog/tags/optimization" (Some "85c");
     exact := Some true; sidebar := None; routes := None |};
  {| path := "/blog/tags/performance"; component := ComponentCreator "/blog/tags/performance" (Some "89c");
     exact := Some true; sidebar := None; routes := None |};
  {| path := "/blog/tags/reactive"; component := ComponentCreator "/blog/tags/reactive" (Some "35c");
     exact := Some true; sidebar := None; routes := None |};
  {| path := "/blog/tags/ui"; component := ComponentCreator "/blog/tags/ui" (Some "322");
     exact := Some true; sidebar := None; routes := None |};
  {| path := "/search"; component := ComponentCreator "/search" (Some "96a");
     exact := Some true; sidebar := None; routes := None |};
  {| path := "/docs"; component := ComponentCreator "/docs" (Some "594");
     exact := None; sidebar := None;
     routes := Some [
      {| path := "/docs"; component := ComponentCreator "/docs" (Some "aa9");
         exact := None; sidebar := None;
         routes := Some [
          {| path := "/docs"; component := ComponentCreator "/docs" (Some "b38");
             exact := None; sidebar := None;
             routes := Some [
              {| path := "/docs/api/createApp"; component := ComponentCreator "/docs/api/createApp" (Some "f05");
                 exact := Some true; sidebar := Some "tutorialSidebar"; routes := None |};
              {| path := "/docs/api/createComponent"; component := ComponentCreator "/docs/api/createComponent" (Some "0a5");
                 exact := Some true; sidebar := Some "tutorialSidebar"; routes := None |};
              {| path := "/docs/api/overview"; component := ComponentCreator "/docs/api/overview" (Some "79e");
                 exact := Some true; sidebar := Some "tutorialSidebar"; routes := None |};
              {| path := "/docs/api/useEffect"; component := ComponentCreator "/docs/api/useEffect" (Some "6ce");
                 exact := Some true; sidebar := Some "tutorialSidebar"; routes := None |};
              {| path := "/docs/api/useFlash"; component := ComponentCreator "/docs/api/useFlash" (Some "74b");
                 exact := Some true; sidebar := Some "tutorialSidebar"; routes := None |};
              {| path := "/docs/api/useLens"; component := ComponentCreator "/docs/api/useLens" (Some "15d");
                 exact := Some true; sidebar := Some "tutorialSidebar"; routes := None |};
              {| path := "/docs/api/useOptic"; component := ComponentCreator "/docs/api/useOptic" (Some "e77");
                 exact := Some true; sidebar := Some "tutorialSidebar"; routes := None |};
              {| path := "/docs/api/useRefraction"; component := ComponentCreator "/docs/api/useRefraction" (Some "f39");
                 exact := Some true; sidebar := Some "tutorialSidebar"; routes := None |};
              {| path := "/docs/concepts/components"; component := ComponentCreator "/docs/concepts/components" (Some "5b5");
                 exact := Some true; sidebar := Some "tutorialSidebar"; routes := None |};
              {| path := "/docs/concepts/effects"; component := ComponentCreator "/docs/concepts/effects" (Some "45a");
                 exact := Some true; sidebar := Some "tutorialSidebar"; routes := None |};
              {| path := "/docs/concepts/lenses"; component := ComponentCreator "/docs/concepts/lenses" (Some "382");
                 exact := Some true; sidebar := Some "tutorialSidebar"; routes := None |};
              {| path := "/docs/concepts/optics"; component := ComponentCreator "/docs/concepts/optics" (Some "da5");
                 exact := Some true; sidebar := Some "tutorialSidebar"; routes := None |};
              {| path := "/docs/concepts/refractions"; component := ComponentCreator "/docs/concepts/refractions" (Some "96d");
                 exact := Some true; sidebar := Some "tutorialSidebar"; routes := None |};
              {| path := "/docs/contributing"; component := ComponentCreator "/docs/contributing" (Some "ff2");
                 exact := Some true; sidebar := Some "tutorialSidebar"; routes := None |};
              {| path := "/docs/getting-started"; component := ComponentCreator "/docs/getting-started" (Some "a24");
                 exact := Some true; sidebar := Some "tutorialSidebar"; routes := None |};
              {| path := "/docs/installation"; component := ComponentCreator "/docs/installation" (Some "b2a");
                 exact := Some true; sidebar := None; routes := None |};
              {| path := "/docs/intro"; component := ComponentCreator "/docs/intro" (Some "aed");
                 exact := Some true; sidebar := Some "tutorialSidebar"; routes := None |};
              {| path := "/docs/tutorials/animation-basics"; component := ComponentCreator "/docs/tutorials/animation-basics" (Some "ac8");
                 exact := Some true; sidebar := Some "tutorialSidebar"; routes := None |};
              {| path := "/docs/tutorials/counter-app"; component := ComponentCreator "/docs/tutorials/counter-app" (Some "774");
                 exact := Some true; sidebar := Some "tutorialSidebar"; routes := None |};
              {| path := "/docs/tutorials/global-theme"; component := ComponentCreator "/docs/tutorials/global-theme" (Some "456");
                 exact := Some true; sidebar := Some "tutorialSidebar"; routes := None |};
              {| path := "/docs/tutorials/todo-list"; component := ComponentCreator "/docs/tutorials/todo-list" (Some "aad");
                 exact := Some true; sidebar := Some "tutorialSidebar"; routes := None |}
             ] |}
         ] |}
     ] |};
  {| path := "/"; component := ComponentCreator "/" (Some "b9e");
     exact := Some true; sidebar := None; routes := None |};
  {| path := "*"; component := ComponentCreator "*" None;
     exact := None; sidebar := None; routes := None |}
].

(** All committed route tables. *)
Definition all_route_tables : list (list RouteNode) :=
  route_tables ++ [routes_table_debug].

(** Whether a table holds, at any depth, an exact record for a path. *)
Definition page_exists (t : list RouteNode) (p : string) : bool :=
  existsb (λ n, String.eqb (path n) p && is_exact n) (all_nodes t).

(** The structural checks on one record: shape ([exact] on pages only, the
    wildcard bare), children nested under their parent, and a component
    reference created for the record's own path, with a hash on every record
    but the wildcard. *)
Definition component_ok (n : RouteNode) : bool :=
  String.eqb (cc_path (component n)) (path n) &&
  (if is_wildcard n then bool_decide (cc_hash (component n) = None)
   else bool_decide (is_Some (cc_hash (component n)))).

Definition record_ok (n : RouteNode) : bool :=
  (if is_wildcard n then bare_record n else shape_ok n) && children_nested n.

(** A table ends with the wildcard record and has no other. *)
Definition single_wildcard (t : list RouteNode) : bool :=
  match reverse t with
  | w :: front =>
      is_wildcard w && forallb (λ n, negb (is_wildcard n)) (all_nodes (reverse front))
  | [] => false
  end.

(** Whether a page of one table is kept by another: same path and sidebar,
    and same component unless it is the blog index. *)
Definition kept_in (t' : list RouteNode) (n : RouteNode) : bool :=
  existsb (λ n', String.eqb (path n') (path n) &&
                 bool_decide (sidebar n' = sidebar n) &&
                 (String.eqb (path n) "/blog" ||
                  bool_decide (cc_hash (component n') = cc_hash (component n))))
    (leaf_records t').

(** ** Navigation of the site configuration *)

(** An entry of [themeConfig.navbar.items]; [type], [sidebarId], [to] and
    [href] are optional keys. *)
Module Navbar.
Record Item : Type := mkItem {
  type : option string;
  sidebarId : option string;
  to : option string;
  href : option string;
  label : string;
  position : string
}.
End Navbar.

(** A column of [themeConfig.footer.links] and its links. *)
Module Footer.
Record Link : Type := mkLink {
  label : string;
  to : option string;
  href : option string
}.
Record Column : Type := mkColumn {
  title : string;
  items : list Link
}.
End Footer.

(** The navigation part of [themeConfig]: the navbar items and the footer
    columns.  The image, logo, colour and search settings are left out. *)
Record ThemeConfig : Type := mkThemeConfig {
  navbar_items : list Navbar.Item;
  footer_links : list Footer.Column
}.

(** [themeConfig] of the main configuration. *)
Definition themeConfig : ThemeConfig := {|
  navbar_items := [
    {| Navbar.type := Some "docSidebar"; Navbar.sidebarId := Some "tutorialSidebar";
       Navbar.to := None; Navbar.href := None;
       Navbar.label := "Docs"; Navbar.position := "left" |};
    {| Navbar.type := None; Navbar.sidebarId := None;
       Navbar.to := Some "/docs/api/overview"; Navbar.href := None;
       Navbar.label := "API"; Navbar.position := "left" |};
    {| Navbar.type := None; Navbar.sidebarId := None;
       Navbar.to := Some "/blog"; Navbar.href := None;
       Navbar.label := "Blog"; Navbar.position := "left" |};
    {| Navbar.type := None; Navbar.sidebarId := None;
       Navbar.to := None; Navbar.href := Some "https://github.com/refract-js/refract";
       Navbar.label := "GitHub"; Navbar.position := "right" |}
  ];
  footer_links := [
    {| Footer.title := "Docs";
       Footer.items := [
         {| Footer.label := "Getting Started";
            Footer.to := Some "/docs/getting-started"; Footer.href := None |};
         {| Footer.label := "API Reference";
            Footer.to := Some "/docs/api/overview"; Footer.href := None |};
         {| Footer.label := "Tutorials";
            Footer.to := Some "/docs/tutorials/counter-app"; Footer.href := None |}
       ] |};
    {| Footer.title := "Community";
       Footer.items := [
         {| Footer.label := "Stack Overflow"; Footer.to := None;
            Footer.href := Some "https://stackoverflow.com/questions/tagged/refract-js" |};
         {| Footer.label := "Discord"; Footer.to := None;
            Footer.href := Some "https://discord.gg/refract" |};
         {| Footer.label := "Twitter"; Footer.to := None;
            Footer.href := Some "https://twitter.com/refractjs" |}
       ] |};
    {| Footer.title := "More";
       Footer.items := [
         {| Footer.label := "Blog"; Footer.to := Some "/blog"; Footer.href := None |};
         {| Footer.label := "GitHub"; Footer.to := None;
            Footer.href := Some "https://github.com/refract-js/refract" |}
       ] |}
  ]
|}.

(** [themeConfig] of the alternate configuration variant. *)
Definition themeConfig_variant : ThemeConfig := {|
  navbar_items := [
    {| Navbar.type := None; Navbar.sidebarId := None;
       Navbar.to := Some "/docs/intro"; Navbar.href := None;
       Navbar.label := "Documentation"; Navbar.position := "left" |};
    {| Navbar.type := None; Navbar.sidebarId := None;
       Navbar.to := Some "/docs/api"; Navbar.href := None;
       Navbar.label := "API"; Navbar.position := "left" |};
    {| Navbar.type := None; Navbar.sidebarId := None;
       Navbar.to := Some "/blog"; Navbar.href := None;
       Navbar.label := "Blog"; Navbar.position := "left" |};
    {| Navbar.type := None; Navbar.sidebarId := None;
       Navbar.to := None; Navbar.href := Some "#";
       Navbar.label := "GitHub"; Navbar.position := "right" |}
  ];
  footer_links := [
    {| Footer.title := "Docs";
       Footer.items := [
         {| Footer.label := "Getting Started";
            Footer.to := Some "/docs/getting-started"; Footer.href := None |};
         {| Footer.label := "API Reference";
            Footer.to := Some "/docs/api"; Footer.href := None |};
         {| Footer.label := "Tutorials";
            Footer.to := Some "/docs/tutorials/getting-started"; Footer.href := None |}
       ] |};
    {| Footer.title := "Community";
       Footer.items := [
         {| Footer.label := "Stack Overflow"; Footer.to := None;
            Footer.href := Some "https://stackoverflow.com/questions/tagged/refract-js" |};
         {| Footer.label := "Discord"; Footer.to := None;
            Footer.href := Some "https://discord.gg/refract" |};
         {| Footer.label := "GitHub"; Footer.to := None; Footer.href := Some "#" |};
         {| Footer.label := "Twitter"; Footer.to := None;
            Footer.href := Some "https://twitter.com/refractjs" |}
       ] |};
    {| Footer.title := "More";
       Footer.items := [
         {| Footer.label := "Blog"; Footer.to := Some "/blog"; Footer.href := None |}
       ] |}
  ]
|}.

(** The internal link targets ([to] keys) of the navbar and the footer. *)
Definition internal_links (tc : ThemeConfig) : list string :=
  omap Navbar.to (navbar_items tc) ++
  (footer_links tc ≫= λ c, omap Footer.to (Footer.items c)).

(** The sidebars a navbar refers to through items of type [docSidebar]. *)
Definition navbar_sidebars (tc : ThemeConfig) : list string :=
  omap (λ i, if bool_decide (Navbar.type i = Some "docSidebar")
             then Navbar.sidebarId i else None) (navbar_items tc).

(** The names of the sidebars defined by [sidebars.js]. *)
Definition sidebar_names : list string := fst <$> sidebars.

(** The route path of a documentation page with a given content identifier,
    as the tables write it: the identifier under ['/docs/']. *)
Definition doc_path (id : string) : string := String.append "/docs/" id.

(** Whether a table holds an exact record for a content identifier that is
    attached to a given sidebar. *)
Definition doc_in_sidebar (t : list RouteNode) (sb id : string) : bool :=
  existsb (λ n, String.eqb (path n) (doc_path id) && is_exact n &&
                bool_decide (sidebar n = Some sb)) (all_nodes t).

(** Whether a record without a [sidebar] key, or one whose key names a
    defined sidebar, sits on an exact page whose path is the path of one of
    the listed content identifiers. *)
Definition sidebar_key_ok (ids : list string) (n : RouteNode) : bool :=
  match sidebar n with
  | None => true
  | Some sb =>
      bool_decide (sb ∈ sidebar_names) && is_exact n &&
      existsb (λ id, String.eqb (path n) (doc_path id)) ids
  end.

(** ** Blog posts and their tags *)

(** The two blog posts of the corpus. *)
Definition blog_posts : list FrontMatter :=
  [introducing_refract; performance_optimization_guide].

(** The [tags] of a front-matter block: the strings of its [tags] list. *)
Definition tags (fm : FrontMatter) : list string :=
  match fm_lookup "tags" fm with
  | Some (YSeq l) =>
      omap (λ y, match y with YStr s => Some s | _ => None end) l
  | _ => []
  end.

(** The page of a blog post and the page of a tag, as the tables write
    them. *)
Definition post_path (s : string) : string := String.append "/blog/" s.
Definition tag_path (tag : string) : string := String.append "/blog/tags/" tag.

(** Whether a top-level record that is a tag page belongs to a tag that
    some blog post declares. *)
Definition tag_page_declared (n : RouteNode) : bool :=
  match strip_prefix "/blog/tags/" (path n) with
  | Some tag => bool_decide (tag ∈ blog_posts ≫= tags)
  | None => true
  end.

(** ** The favicon script *)

(** A script of the repository copies the logo over the favicon:
    [[
      const sourcePath = path.join(__dirname, '../static/img/logo.svg');
      const destPath = path.join(__dirname, '../static/img/favicon.ico');
      fs.copyFileSync(sourcePath, destPath);
      console.log('Favicon updated successfully!');
    ]]
    Absolute paths are lists of segments below the root; the file system is
    a finite map from paths to file contents. *)
Definition Path : Type := list string.

(** The segments of a path string, split at each ['/']. *)
Fixpoint split_path_aux (cur : string) (s : string) : list string :=
  match s with
  | EmptyString => [cur]
  | String c s' =>
      if Ascii.eqb c "/"%char then cur :: split_path_aux "" s'
      else split_path_aux (String.append cur (String c "")) s'
  end.

Definition split_path (s : string) : list string := split_path_aux "" s.

(** Normalisation of an absolute path, as [path.join] of Node performs it:
    empty and ['.'] segments are dropped and ['..'] removes the segment
    before it, staying at the root when there is none.  [stack] holds the
    segments kept so far, innermost first. *)
Fixpoint normalize_onto (stack : list string) (segs : list string) : Path :=
  match segs with
  | [] => reverse stack
  | s :: rest =>
      if String.eqb s "" || String.eqb s "." then normalize_onto stack rest
      else if String.eqb s ".." then normalize_onto (tail stack) rest
      else normalize_onto (s :: stack) rest
  end.

(** [path.join(dir, rel)] for an absolute directory [dir]. *)
Definition path_join (dir : Path) (rel : string) : Path :=
  normalize_onto [] (dir ++ split_path rel).

Definition sourcePath (dirname : Path) : Path :=
  path_join dirname "../static/img/logo.svg".

Definition destPath (dirname : Path) : Path :=
  path_join dirname "../static/img/favicon.ico".





(** A segment a normalised path may contain. *)
Definition proper_segment (s : string) : Prop :=
  s ≠ "" ∧ s ≠ "." ∧ s ≠ "..".

(** ** The pages written as React components *)

(** A rendered element: text, a fragment, an element with a tag or imported
    component name, its props and children, or an element given a [key] in
    a list.  The components of the repository are functions to elements. *)
Inductive PropValue : Type :=
| PStr (s : string)
| PStyle (declarations : list (string * string)).

#[warnings="-register-all"] Inductive Element : Type :=
| Text (s : string)
| Fragment (children : list Element)
| Tag (name : string) (props : list (string * PropValue)) (children : list Element)
| Keyed (key : nat) (e : Element).

(** [clsx(...)] on strings: the non-empty arguments joined by a space. *)
Definition clsx (classes : list string) : string :=
  String.concat " " (filter (λ c, c ≠ "") classes).

Definition className (c : string) : string * PropValue := ("className", PStr c).

(** The targets of the [Link] elements of a tree, in document order. *)
Fixpoint links_of (e : Element) : list string :=
  match e with
  | Text _ => []
  | Fragment children => children ≫= links_of
  | Tag name props children =>
      (if String.eqb name "Link"
       then omap (λ kv, match kv with
                        | ("to", PStr target) => Some target
                        | _ => None
                        end) props
       else []) ++ (children ≫= links_of)
  | Keyed _ e' => links_of e'
  end.

(** The keys of the elements of a list, [None] for an element without. *)
Definition key_of (e : Element) : option nat :=
  match e with
  | Keyed k _ => Some k
  | _ => None
  end.

(** [src/components/HomepageFeatures/index.js].  [styles] is the imported
    CSS module, a map from class keys to generated class names. *)
Module HomepageFeatures.
Record FeatureProps : Type := mkFeature {
  title : string;
  icon : string;
  description : Element
}.

Definition FeatureList : list FeatureProps := [
  {| title := "Reactive by Design";
     icon := "🔄";
     description := Fragment [
       Text "Built with reactivity at its core. Refractions automatically update your UI when state changes, eliminating the need for manual DOM manipulation."] |};
  {| title := "Composable Architecture";
     icon := "🧩";
     description := Fragment [
       Text "Create reusable optics and lenses that encapsulate complex logic. Build applications with modular, testable, and maintainable components."] |};
  {| title := "Developer Experience";
     icon := "⚡";
     description := Fragment [
       Text "Familiar React-like syntax with modern JavaScript features. TypeScript support, excellent tooling, and comprehensive error messages."] |}
].

Definition Feature (styles : string → string) (props : FeatureProps) : Element :=
  Tag "div" [className (clsx ["col col--4"])] [
    Tag "div" [className "text--center"] [
      Tag "div" [className (styles "featureIcon"); ("role", PStr "img")]
        [Text (icon props)]];
    Tag "div" [className "text--center padding-horiz--md"] [
      Tag "h3" [] [Text (title props)];
      Tag "p" [] [description props]]].

(** [features.map((props, idx) => <Feature key={idx} {...props} />)]. *)
Definition feature_columns (styles : string → string)
    (features : list FeatureProps) : list Element :=
  imap (λ idx props, Keyed idx (Feature styles props)) features.

Definition HomepageFeatures (styles : string → string) : Element :=
  Tag "section" [className (styles "features")] [
    Tag "div" [className "container"] [
      Tag "div" [className "row"] (feature_columns styles FeatureList)]].
End HomepageFeatures.

(** The second version of the features component committed with the
    repository: cards with a link each, and a list of highlights. *)
Module FeatureCards.
Record FeatureProps : Type := mkFeature {
  title : string;
  icon : string;
  gradient : string;
  description : Element;
  link : string;
  linkText : string
}.

Definition FeatureList : list FeatureProps := [
  {| title := "Updates Automatically";
     icon := "AUTO";
     gradient := "linear-gradient(135deg, #667eea 0%, #764ba2 100%)";
     description := Fragment [
       Text "When you change something in your code, your website updates by itself. No need to refresh the page or write extra code to make things work. It just happens automatically."];
     link := "/docs/concepts/components";
     linkText := "Learn How It Works" |};
  {| title := "Easy to Build With";
     icon := "BUILD";
     gradient := "linear-gradient(135deg, #8b5cf6 0%, #6366f1 100%)";
     description := Fragment [
       Text "Make pieces of code that you can use again and again. Build websites with small parts that work together. Keep your code organized and easy to understand."];
     link := "/docs/concepts/lenses";
     linkText := "See Examples" |};
  {| title := "Beginner Friendly";
     icon := "LEARN";
     gradient := "linear-gradient(135deg, #06b6d4 0%, #3b82f6 100%)";
     description := Fragment [
       Text "Uses simple JavaScript that looks familiar. Comes with helpful error messages when something goes wrong. Great tools to help you learn and build faster."];
     link := "/docs/installation";
     linkText := "Start Learning" |}
].

(** The props of a highlight; its [icon] is written [hicon] here, next to
    the [icon] of a feature. *)
Record HighlightProps : Type := mkHighlight {
  label : string;
  value : string;
  hicon : string
}.

Definition TechHighlights : list HighlightProps := [
  {| label := "File Size"; value := "Very Small"; hicon := "SIZE" |};
  {| label := "Speed"; value := "Super Fast"; hicon := "SPEED" |};
  {| label := "TypeScript"; value := "Built In"; hicon := "TYPE" |};
  {| label := "Works With"; value := "Everything"; hicon := "COMPAT" |}
].

Definition Feature (styles : string → string) (props : FeatureProps) : Element :=
  Tag "div" [className (clsx ["col col--4"])] [
    Tag "div" [className (styles "featureCard")] [
      Tag "div" [className (styles "featureHeader")] [
        Tag "div" [className (styles "featureIcon");
                   ("style", PStyle [("background", gradient props)]);
                   ("role", PStr "img")]
          [Text (icon props)];
        Tag "h3" [className (styles "featureTitle")] [Text (title props)]];
      Tag "div" [className (styles "featureContent")] [
        Tag "p" [className (styles "featureDescription")] [description props];
        Tag "Link" [className (styles "featureLink"); ("to", PStr (link props))]
          [Text (linkText props); Text " →"]]]].

Definition TechHighlight (styles : string → string) (props : HighlightProps)
  : Element :=
  Tag "div" [className (styles "techHighlight")] [
    Tag "div" [className (styles "techIcon")] [Text (hicon props)];
    Tag "div" [className (styles "techContent")] [
      Tag "div" [className (styles "techValue")] [Text (value props)];
      Tag "div" [className (styles "techLabel")] [Text (label props)]]].

Definition feature_columns (styles : string → string)
    (features : list FeatureProps) : list Element :=
  imap (λ idx props, Keyed idx (Feature styles props)) features.

Definition highlight_cells (styles : string → string)
    (highlights : list HighlightProps) : list Element :=
  imap (λ idx highlight, Keyed idx (TechHighlight styles highlight)) highlights.

Definition HomepageFeatures (styles : string → string) : Element :=
  Fragment [
    Tag "section" [className (styles "features")] [
      Tag "div" [className "container"] [
        Tag "div" [className (styles "sectionHeader")] [
          Tag "h2" [className (styles "sectionTitle")] [Text "Why Use Refract?"];
          Tag "p" [className (styles "sectionSubtitle")] [
            Text "Simple tools that make building websites fun and easy"]];
        Tag "div" [className "row"] (feature_columns styles FeatureList)]];
    Tag "section" [className (styles "techSection")] [
      Tag "div" [className "container"] [
        Tag "div" [className (styles "sectionHeader")] [
          Tag "h2" [className (styles "sectionTitle")] [Text "What Makes It Great"];
          Tag "p" [className (styles "sectionSubtitle")] [
            Text "Fast, small, and works with all your favorite tools"]];
        Tag "div" [className (styles "techGrid")]
          (highlight_cells styles TechHighlights);
        Tag "div" [className (styles "ctaSection")] [
          Tag "h3" [className (styles "ctaTitle")] [
            Text "Ready to build something cool?"];
          Tag "div" [className (styles "ctaButtons")] [
            Tag "Link" [className "button button--primary button--lg";
                        ("to", PStr "/docs/installation")]
              [Text "Start Building"];
            Tag "Link" [className "button button--secondary button--lg";
                        ("to", PStr "/docs/tutorials/counter-app")]
              [Text "See Examples"]]]]]].
End FeatureCards.

(** [src/pages/index.js].  [siteConfig] comes from the site context;
    [features] is the rendering of the imported [HomepageFeatures]. *)
Module HomePage.
Definition HomepageHeader (styles : string → string) (siteConfig : Config)
  : Element :=
  Tag "header" [className (clsx ["hero hero--primary"; styles "heroBanner"])] [
    Tag "div" [className "container"] [
      Tag "div" [className (styles "heroContent")] [
        Tag "div" [className (styles "heroText")] [
          Tag "h1" [className "hero__title"] [
            Tag "span" [className (styles "titleMain")] [Text (title siteConfig)];
            Tag "span" [className (styles "titleAccent")] [Text "Framework"]];
          Tag "p" [className "hero__subtitle"] [
            Text "A simple JavaScript tool that makes building websites easier. Your website updates automatically when things change."];
          Tag "div" [className (styles "heroStats")] [
            Tag "div" [className (styles "stat")] [
              Tag "div" [className (styles "statNumber")] [Text "Fast"];
              Tag "div" [className (styles "statLabel")] [Text "Super Quick"]];
            Tag "div" [className (styles "stat")] [
              Tag "div" [className (styles "statNumber")] [Text "Auto"];
              Tag "div" [className (styles "statLabel")] [Text "Updates Itself"]];
            Tag "div" [className (styles "stat")] [
              Tag "div" [className (styles "statNumber")] [Text "Easy"];
              Tag "div" [className (styles "statLabel")] [Text "Simple to Use"]]];
          Tag "div" [className (styles "buttons")] [
            Tag "Link" [className "button button--primary button--lg";
                        ("to", PStr "/docs/installation")]
              [Tag "span" [] [Text "Start Now"]];
            Tag "Link" [className "button button--secondary button--lg";
                        ("to", PStr "/docs/getting-started")]
              [Tag "span" [] [Text "Learn How"]];
            Tag "Link" [className "button button--outline button--secondary button--lg";
                        ("to", PStr "/docs/api/overview")]
              [Tag "span" [] [Text "All Features"]]]];
        Tag "div" [className (styles "heroCode")] [
          Tag "div" [className (styles "codeWindow")] [
            Tag "div" [className (styles "codeHeader")] [
              Tag "div" [className (styles "codeButtons")] [
                Tag "span" [className (styles "codeButton");
                            ("style", PStyle [("background", "#ff5f56")])] [];
                Tag "span" [className (styles "codeButton");
                            ("style", PStyle [("background", "#ffbd2e")])] [];
                Tag "span" [className (styles "codeButton");
                            ("style", PStyle [("background", "#27ca3f")])] []];
              Tag "div" [className (styles "codeTitle")] [Text "Counter.jsx"]];
            Tag "pre" [className (styles "codeBlock")] [
              Tag "code" [] [Text "import { createApp, createComponent } from 'refract';

const Counter = createComponent(({ lens }) => {
  const count = lens.useRefraction(0);
  const theme = lens.useRefraction('light');
  
  const increment = () => count.set(prev => prev + 1);
  const toggleTheme = () => theme.set(
    prev => prev === 'light' ? 'dark' : 'light'
  );
  
  return (
    <div className={`counter ${theme.value}`}>
      <h2>Count: {count.value}</h2>
      <button onClick={increment}>
        Add One
      </button>
      <button onClick={toggleTheme}>
        {theme.value === 'light' ? 'Dark Mode' : 'Light Mode'}
      </button>
    </div>
  );
});

createApp(Counter).mount('#root');"]]]]]]].

Definition Home (styles : string → string) (siteConfig : Config)
    (features : Element) : Element :=
  Tag "Layout"
    [("title", PStr (String.append "Hello from " (title siteConfig)));
     ("description",
      PStr "A reactive, composable JavaScript framework for building modern UIs")]
    [HomepageHeader styles siteConfig;
     Tag "main" [] [features]].
End HomePage.

(** The first version of the home page committed with the repository. *)
Module HomePageSimple.
Definition HomepageHeader (styles : string → string) (siteConfig : Config)
  : Element :=
  Tag "header" [className (clsx ["hero hero--primary"; styles "heroBanner"])] [
    Tag "div" [className "container"] [
      Tag "h1" [className "hero__title"] [Text (title siteConfig)];
      Tag "p" [className "hero__subtitle"] [Text (tagline siteConfig)];
      Tag "div" [className (styles "buttons")] [
        Tag "Link" [className "button button--secondary button--lg";
                    ("to", PStr "/docs/getting-started")]
          [Text "Get Started - 5min ⏱️"];
        Tag "Link" [className "button button--outline button--secondary button--lg";
                    ("to", PStr "/docs/api/overview");
                    ("style", PStyle [("marginLeft", "1rem")])]
          [Text "API Reference"]];
      Tag "div" [className (styles "codeExample")] [
        Tag "pre" [className (styles "codeBlock")] [
          Tag "code" [] [Text "import { createApp, createComponent } from 'refract';

const Counter = createComponent(({ lens }) => {
  const count = lens.useRefraction(0);
  
  return (
    <button onClick={() => count.set(count.value + 1)}>
      Clicked {count.value} times
    </button>
  );
});

createApp(Counter).mount('#root');"]]]]].

Definition Home (styles : string → string) (siteConfig : Config)
    (features : Element) : Element :=
  Tag "Layout"
    [("title", PStr (String.append "Hello from " (title siteConfig)));
     ("description",
      PStr "A reactive, composable JavaScript framework for building modern UIs")]
    [HomepageHeader styles siteConfig;
     Tag "main" [] [features]].
End HomePageSimple.

(** The home pages of the repository: each version of the page with each
    version of the features component. *)
Definition home_pages (styles fstyles : string → string) (siteConfig : Config)
  : list Element :=
  [HomePage.Home styles siteConfig (HomepageFeatures.HomepageFeatures fstyles);
   HomePage.Home styles siteConfig (FeatureCards.HomepageFeatures fstyles);
   HomePageSimple.Home styles siteConfig (HomepageFeatures.HomepageFeatures fstyles);
   HomePageSimple.Home styles siteConfig (FeatureCards.HomepageFeatures fstyles)].

(** ** Documentation files *)

(** The Markdown files of the two documentation folders, by their path
    below the folder, each with its front-matter block (empty when the file
    has none). *)
Definition site_docs : list (string * FrontMatter) := [
  ("api/overview.md", []);
  ("api/createComponent.md", []);
  ("installation.md", []);
  ("tutorials/global-theme.md", []);
  ("tutorials/getting-started.md",
     [("id", YStr "getting-started"); ("title", YStr "Getting Started")]);
  ("contributing.md", []);
  ("getting-started.md", []);
  ("intro.md", [])
].

Definition root_docs : list (string * FrontMatter) := [
  ("api/createOptic.md",
     [("id", YStr "createOptic"); ("title", YStr "createOptic")]);
  ("api/useEffect.md", []);
  ("tutorials/animation-basics.md", []);
  ("concepts/lenses.md", []);
  ("concepts/optics.md", []);
  ("concepts/state-management.md",
     [("id", YStr "state-management");
      ("title", YStr "State Management in Refract")])
].

Definition doc_files : list (string * FrontMatter) := site_docs ++ root_docs.

(** A file path without its [.md] extension. *)
Fixpoint without_md (s : string) : string :=
  match s with
  | EmptyString => EmptyString
  | String c s' => if String.eqb s ".md" then EmptyString else String c (without_md s')
  end.

(** Whether a string ends with another. *)
Fixpoint ends_with (suffix s : string) : bool :=
  String.eqb s suffix ||
  match s with
  | EmptyString => false
  | String _ s' => ends_with suffix s'
  end.

(** The [id] a front-matter block declares, if any. *)
Definition declared_id (fm : FrontMatter) : option string :=
  match fm_lookup "id" fm with
  | Some (YStr s) => Some s
  | _ => None
  end.

(** Whether a documentation file has its page in a table, and whether a
    declared [id] is the file's own name. *)
Definition doc_file_ok (t : list RouteNode) (f : string * FrontMatter) : bool :=
  page_exists t (doc_path (without_md f.1)) &&
  match declared_id f.2 with
  | Some id => ends_with (String.append "/" id) (String.append "/" (without_md f.1))
  | None => true
  end.

(** * Properties *)

(** ** Facts about the embedding *)

Example leaf_records_count :
  length (leaf_records routes_table) = 42 ∧
  length (leaf_records routes_table_variant) = 69.
Proof. vm_compute. done. Qed.

Lemma in_route_tables (Q : list RouteNode → Prop) :
  Q routes_table → Q routes_table_variant →
  ∀ t, t ∈ route_tables → Q t.
Proof.
  intros Ha Hb t Ht. unfold route_tables in Ht.
  apply elem_of_cons in Ht as [-> | Ht]; [exact Ha |].
  apply elem_of_cons in Ht as [-> | Ht]; [exact Hb |].
  by apply elem_of_nil in Ht.
Qed.

Lemma forallb_elem_of {A} (f : A → bool) (l : list A) (x : A) :
  forallb f l = true → x ∈ l → f x = true.
Proof.
  intros Hall Hx. apply list_elem_of_In in Hx.
  by apply (proj1 (forallb_forall f l) Hall).
Qed.

Lemma shape_ok_spec (n : RouteNode) : shape_ok n = true ↔ shape_invariant n.
Proof.
  destruct n as [p c e s r]. unfold shape_ok, shape_invariant, children. simpl.
  split.
  - destruct r as [[| k kids] |], e as [[|] |]; try discriminate; intros _.
    + split; [discriminate | done].
    + split; [done | intros [? [=]]].
  - intros [Hleaf Hlayout]. destruct r as [[| k kids] |]; simpl in *.
    + specialize (Hleaf eq_refl). specialize (Hlayout (mk_is_Some _ _ eq_refl)).
      congruence.
    + by rewrite Hlayout.
    + by rewrite Hleaf.
Qed.

Lemma bare_record_spec (n : RouteNode) :
  bare_record n = true ↔ routes n = None ∧ exact n = None.
Proof.
  destruct n as [p c e s r]. unfold bare_record. simpl.
  destruct r, e; split; (intros [? ?] || intros ?); try done.
Qed.

Lemma string_append_cons (x : Ascii.ascii) (a r : string) :
  String.append (String x a) r = String x (String.append a r).
Proof. reflexivity. Qed.

(** [String.prefix a b] holds exactly when [b] is [a] followed by a rest. *)
Lemma string_prefix_app (a b : string) :
  String.prefix a b = true ↔ ∃ r, b = String.append a r.
Proof.
  revert b. induction a as [| x a IH]; intros b.
  - split; [intros _; exists b; done | intros _; by destruct b].
  - destruct b as [| y b]; simpl.
    + split; [done | intros [r Hr]; by rewrite string_append_cons in Hr].
    + destruct (Ascii.ascii_dec x y) as [-> | Hxy].
      * rewrite IH.
        split; intros [r Hr]; exists r; rewrite string_append_cons in *;
          congruence.
      * split; [done |].
        intros [r Hr]. rewrite string_append_cons in Hr. congruence.
Qed.

Lemma string_prefix_refl (a : string) : String.prefix a a = true.
Proof.
  apply string_prefix_app. exists "". induction a as [| x a IH]; [done |].
  rewrite string_append_cons. by rewrite <- IH.
Qed.

Lemma string_append_assoc (a b c : string) :
  String.append (String.append a b) c = String.append a (String.append b c).
Proof.
  induction a as [| x a IH]; [done |].
  rewrite !string_append_cons. by rewrite IH.
Qed.

Lemma string_prefix_trans (a b c : string) :
  String.prefix a b = true → String.prefix b c = true →
  String.prefix a c = true.
Proof.
  rewrite !string_prefix_app. intros [r ->] [r' ->].
  exists (String.append r r'). apply string_append_assoc.
Qed.

Lemma elem_of_subtree_self (n : RouteNode) : n ∈ subtree n.
Proof. destruct n as [p c e s [kids |]]; simpl; apply list_elem_of_here. Qed.

Lemma elem_of_subtree_inv (n m : RouteNode) :
  m ∈ subtree n → m = n ∨ m ∈ descendants n.
Proof.
  unfold descendants, children. destruct n as [p c e s [kids |]]; simpl;
    intros [-> | H]%elem_of_cons; auto.
Qed.

(** Nesting of children carries over to all descendants: a layout whose
    subtree is nested level by level prefixes every path below it. *)
Lemma nested_descendants (n : RouteNode) :
  (∀ m, m ∈ subtree n → children_nested m = true) →
  ∀ d, d ∈ subtree n → String.prefix (path n) (path d) = true.
Proof.
  induction n as [p c e s | p c e s kids IH] using RouteNode_tree_ind;
    intros Hall d Hd.
  - apply elem_of_subtree_inv in Hd as [-> | Hd].
    + apply string_prefix_refl.
    + unfold descendants, children in Hd. simpl in Hd. by apply elem_of_nil in Hd.
  - apply elem_of_subtree_inv in Hd as [-> | Hd].
    + apply string_prefix_refl.
    + unfold descendants, children in Hd. simpl in Hd.
      apply list_elem_of_bind in Hd as (k & Hdk & Hk).
      assert (Hpk : String.prefix p (path k) = true).
      { pose proof (Hall _ (elem_of_subtree_self _)) as Hn.
        unfold children_nested, children in Hn. simpl in Hn.
        by apply (forallb_elem_of _ _ k Hn). }
      apply (string_prefix_trans _ (path k)); [exact Hpk |].
      rewrite Forall_forall in IH. apply (IH k Hk); [| exact Hdk].
      intros m Hm. apply Hall. simpl. apply list_elem_of_further.
      apply list_elem_of_bind. eauto.
Qed.

Lemma subtree_trans (n m d : RouteNode) :
  m ∈ subtree n → d ∈ subtree m → d ∈ subtree n.
Proof.
  induction n as [p c e s | p c e s kids IH] using RouteNode_tree_ind;
    intros Hm Hd.
  - apply elem_of_subtree_inv in Hm as [-> | Hm]; [done |].
    unfold descendants, children in Hm. simpl in Hm. by apply elem_of_nil in Hm.
  - apply elem_of_subtree_inv in Hm as [-> | Hm]; [done |].
    unfold descendants, children in Hm. simpl in Hm.
    apply list_elem_of_bind in Hm as (k & Hmk & Hk).
    rewrite Forall_forall in IH.
    simpl. apply list_elem_of_further, list_elem_of_bind.
    exists k. split; [by apply IH | done].
Qed.

(** ** Invariants of the committed tables *)

(** C3 — path uniqueness.  In each of the two route tables, two distinct
    leaf records (records carrying [exact: true], taken at different
    positions of the table) never have the same [path]. *)
Theorem route_paths_unique (t : list RouteNode) (i j : nat) (r1 r2 : RouteNode) :
  t ∈ route_tables →
  leaf_records t !! i = Some r1 → leaf_records t !! j = Some r2 →
  i ≠ j → path r1 ≠ path r2.
Proof.
  intros Ht.
  assert (Hnd : NoDup (path <$> leaf_records t)).
  { revert t Ht. apply in_route_tables; compute_done. }
  intros H1 H2 Hij Heq. apply Hij.
  apply (proj1 (NoDup_alt _) Hnd i j (path r1)).
  - by rewrite list_lookup_fmap, H1.
  - by rewrite list_lookup_fmap, H2, Heq.
Qed.

Lemma route_paths_unique_witness :
  ∃ r1 r2,
    leaf_records routes_table !! 0 = Some r1 ∧
    leaf_records routes_table !! 14 = Some r2 ∧
    path r1 = "/blog" ∧ path r2 = "/docs/advanced/performance" ∧
    path r1 ≠ path r2.
Proof.
  eexists _, _. split; [reflexivity |]. split; [reflexivity |].
  split; [reflexivity |]. split; [reflexivity |].
  apply (route_paths_unique routes_table 0 14).
  - apply list_elem_of_here.
  - reflexivity.
  - reflexivity.
  - lia.
Defined.

(** C4, as stated — every record of both tables, the wildcard record
    included, satisfies the shape invariant.  This fails: the record with
    path ['*'] of [routes_table] has no [routes] and no [exact] key. *)
Lemma shape_invariant_fails_at_wildcard :
  ¬ (∀ t, t ∈ route_tables → ∀ n, n ∈ all_nodes t → shape_invariant n).
Proof.
  intros Hall.
  assert (Hw : ∃ w, all_nodes routes_table !! 45 = Some w ∧ path w = "*" ∧
                    children w = [] ∧ exact w = None)
    by (eexists; repeat split; reflexivity).
  destruct Hw as (w & Hlook & _ & Hkids & Hexact).
  destruct (Hall routes_table (list_elem_of_here _ _) w) as [Hleaf _].
  { apply list_elem_of_lookup. eauto. }
  specialize (Hleaf Hkids). congruence.
Qed.

(** C4, amended — in both tables every record other than the wildcard
    satisfies the shape invariant (no children: [exact: true]; a [routes]
    array: no [exact] key), and a record with path ['*'] carries neither a
    [routes] array nor an [exact] key. *)
Theorem shape_invariant_except_wildcard (t : list RouteNode) (n : RouteNode) :
  t ∈ route_tables → n ∈ all_nodes t →
  (path n ≠ "*" → shape_invariant n) ∧
  (path n = "*" → routes n = None ∧ exact n = None).
Proof.
  intros Ht Hn.
  assert (Hok : forallb (λ m, if is_wildcard m then bare_record m else shape_ok m)
                  (all_nodes t) = true).
  { clear Hn. revert t Ht. apply in_route_tables; vm_compute; reflexivity. }
  pose proof (forallb_elem_of _ _ n Hok Hn) as Hcheck. simpl in Hcheck.
  unfold is_wildcard in Hcheck.
  destruct (String.eqb_spec (path n) "*") as [Heq | Hne]; split; try done.
  - intros _. by apply bare_record_spec.
  - intros _. by apply shape_ok_spec.
Qed.

Lemma shape_invariant_except_wildcard_witness :
  ∃ n, all_nodes routes_table !! 14 = Some n ∧ path n = "/docs" ∧
       shape_invariant n.
Proof.
  eexists. split; [reflexivity |]. split; [reflexivity |].
  eapply (shape_invariant_except_wildcard routes_table).
  - apply list_elem_of_here.
  - apply list_elem_of_lookup. exists 14. reflexivity.
  - discriminate.
Defined.

(** C9 — prefix nesting.  In both tables, for every record that carries a
    [routes] array, the path of each child begins with the path of the
    parent; hence every record below a ['/docs'] wrapper has a path that
    starts with ['/docs']. *)
Theorem routes_prefix_nested (t : list RouteNode) (n : RouteNode) :
  t ∈ route_tables → n ∈ all_nodes t →
  (∀ kids k, routes n = Some kids → k ∈ kids →
     String.prefix (path n) (path k) = true) ∧
  (∀ d, d ∈ descendants n → String.prefix (path n) (path d) = true) ∧
  (path n = "/docs" → ∀ d, d ∈ subtree n → String.prefix "/docs" (path d) = true).
Proof.
  intros Ht Hn.
  assert (Hok : forallb children_nested (all_nodes t) = true).
  { clear Hn. revert t Ht. apply in_route_tables; vm_compute; reflexivity. }
  assert (Hsub : ∀ m, m ∈ subtree n → children_nested m = true).
  { intros m Hm. apply (forallb_elem_of _ _ m Hok).
    unfold all_nodes in *. apply list_elem_of_bind in Hn as (r & Hn & Hr).
    apply list_elem_of_bind. exists r. split; [| done].
    by apply (subtree_trans r n m). }
  pose proof (nested_descendants n Hsub) as Hdesc.
  split; [| split].
  - intros kids k Hkids Hk.
    pose proof (Hsub n (elem_of_subtree_self n)) as Hc.
    unfold children_nested, children in Hc. rewrite Hkids in Hc. simpl in Hc.
    by apply (forallb_elem_of _ _ k Hc).
  - intros d Hd. apply Hdesc.
    destruct n as [p c e s [kids |]]; simpl; by apply list_elem_of_further.
  - intros <-. exact Hdesc.
Qed.

Lemma routes_prefix_nested_witness :
  ∃ n, all_nodes routes_table !! 14 = Some n ∧ path n = "/docs" ∧
       length (descendants n) = 29 ∧
       ∀ d, d ∈ descendants n → String.prefix "/docs" (path d) = true.
Proof.
  eexists. split; [reflexivity |]. split; [reflexivity |].
  split; [reflexivity |].
  refine (proj1 (proj2 (routes_prefix_nested routes_table _ _ _))).
  - apply list_elem_of_here.
  - apply list_elem_of_lookup. exists 14. reflexivity.
Defined.

(** C10 — the wildcard comes last.  In both tables the last element of the
    exported top-level list is the record with path ['*'], and every
    top-level record with another path stands before it. *)
Theorem wildcard_is_last (t : list RouteNode) :
  t ∈ route_tables →
  ∃ w, last t = Some w ∧ path w = "*" ∧
       ∀ i n, t !! i = Some n → path n ≠ "*" → i < length t - 1.
Proof.
  intros Ht.
  assert (Hlast : ∃ w, last t = Some w ∧ path w = "*").
  { revert t Ht. apply in_route_tables; eexists; split; reflexivity. }
  destruct Hlast as (w & Hlast & Hw). exists w. repeat split; [done .. |].
  intros i n Hi Hn.
  pose proof (lookup_lt_Some _ _ _ Hi) as Hlt.
  destruct (decide (i = length t - 1)) as [-> | Hne]; [| lia].
  rewrite last_lookup in Hlast.
  replace (pred (length t)) with (length t - 1) in Hlast by lia.
  congruence.
Qed.

Lemma wildcard_is_last_witness :
  ∃ w, last routes_table_variant = Some w ∧ path w = "*" ∧
       length routes_table_variant = 29.
Proof.
  destruct (wildcard_is_last routes_table_variant) as (w & Hlast & Hw & _).
  - apply list_elem_of_further, list_elem_of_here.
  - exists w. repeat split; [exact Hlast | exact Hw].
Defined.

(** ** Route resolution *)

Example resolve_docs_intro :
  (page <$> resolve routes_table "/docs/intro") =
    Some {| path := "/docs/intro";
            component := ComponentCreator "/docs/intro" (Some "61d");
            exact := Some true; sidebar := Some "tutorialSidebar";
            routes := None |} ∧
  (depth <$> resolve routes_table "/docs/intro") = Some 3.
Proof. vm_compute. done. Qed.

Example resolve_docs_nonexistent :
  (path ∘ page <$> resolve routes_table "/docs/nonexistent") = Some "*" ∧
  (path ∘ page <$> resolve routes_table_variant "/docs/nonexistent") = Some "*".
Proof. vm_compute. done. Qed.

Example resolve_root :
  (path ∘ page <$> resolve routes_table "/") = Some "/" ∧
  (path ∘ page <$> resolve routes_table "/docs") = Some "*" ∧
  (path ∘ page <$> resolve routes_table "/docs/api") = Some "/docs/api" ∧
  (path ∘ page <$> resolve routes_table "/docs/api/") = Some "*" ∧
  (path ∘ page <$> resolve routes_table "/docsx/api") = Some "*".
Proof. vm_compute. done. Qed.

(** *** The choice among candidates *)

Lemma more_specific_spec (a b : Match) :
  more_specific a b = true ↔
  kind b < kind a ∨ (kind a = kind b ∧ depth b < depth a).
Proof.
  unfold more_specific.
  rewrite orb_true_iff, andb_true_iff, !Nat.ltb_lt, Nat.eqb_eq. tauto.
Qed.

Lemma not_more_specific_spec (a b : Match) :
  more_specific a b = false ↔
  kind a < kind b ∨ (kind a = kind b ∧ depth a ≤ depth b).
Proof.
  rewrite <- not_true_iff_false, more_specific_spec. lia.
Qed.

Lemma foldl_pick_some (l : list Match) (b : Match) :
  ∃ r, foldl pick (Some b) l = Some r.
Proof.
  revert b. induction l as [| m l IH]; intros b; simpl; [eauto |].
  destruct (more_specific m b); apply IH.
Qed.

(** The fold keeps a candidate that no other candidate beats. *)
Lemma foldl_pick_max (l : list Match) (b r : Match) :
  foldl pick (Some b) l = Some r →
  (r = b ∨ r ∈ l) ∧ more_specific b r = false ∧
  ∀ c, c ∈ l → more_specific c r = false.
Proof.
  revert b. induction l as [| m l IH]; intros b; simpl.
  - intros [= ->]. split; [by left |]. split.
    + apply not_more_specific_spec. lia.
    + intros c Hc. by apply elem_of_nil in Hc.
  - destruct (more_specific m b) eqn:Hmb; intros Hr;
      destruct (IH _ Hr) as (Hin & Hacc & Hrest).
    + split; [right; destruct Hin as [-> | Hin];
                [apply list_elem_of_here | by apply list_elem_of_further] |].
      apply more_specific_spec in Hmb.
      apply not_more_specific_spec in Hacc.
      split; [apply not_more_specific_spec; lia |].
      intros c [-> | Hc]%elem_of_cons; [| by apply Hrest].
      apply not_more_specific_spec. lia.
    + split; [destruct Hin as [-> | Hin];
                [by left | right; by apply list_elem_of_further] |].
      split; [exact Hacc |].
      apply not_more_specific_spec in Hmb.
      apply not_more_specific_spec in Hacc.
      intros c [-> | Hc]%elem_of_cons; [| by apply Hrest].
      apply not_more_specific_spec. lia.
Qed.

(** Resolution succeeds as soon as one candidate matches, and its result
    is a candidate that no candidate is more specific than. *)
Lemma resolve_some (t : list RouteNode) (p : string) (c : Match) :
  c ∈ candidates t p →
  ∃ r, resolve t p = Some r ∧ r ∈ candidates t p ∧
       ∀ c', c' ∈ candidates t p → more_specific c' r = false.
Proof.
  unfold resolve. destruct (candidates t p) as [| m l] eqn:Hl.
  - intros Hc. by apply elem_of_nil in Hc.
  - intros _. simpl. destruct (foldl_pick_some l m) as [r Hr].
    exists r. split; [exact Hr |].
    destruct (foldl_pick_max _ _ _ Hr) as (Hin & Hacc & Hrest).
    split.
    + destruct Hin as [-> | Hin];
        [apply list_elem_of_here | by apply list_elem_of_further].
    + intros c' [-> | Hc']%elem_of_cons; [exact Hacc | by apply Hrest].
Qed.

Lemma resolve_none (t : list RouteNode) (p : string) :
  resolve t p = None ↔ candidates t p = [].
Proof.
  unfold resolve. destruct (candidates t p) as [| m l]; simpl; [done |].
  destruct (foldl_pick_some l m) as [r ->]. done.
Qed.

(** *** Candidates and placements *)

Lemma is_wildcard_spec (n : RouteNode) : is_wildcard n = true ↔ path n = "*".
Proof. unfold is_wildcard. apply String.eqb_eq. Qed.

Lemma kind_wildcard (m : Match) : kind m = 0 ↔ is_wildcard (page m) = true.
Proof.
  unfold kind. destruct (is_wildcard (page m)); [done |].
  destruct (is_exact (page m)); split; intros; lia || done.
Qed.

Lemma kind_exact (m : Match) :
  is_wildcard (page m) = false → is_exact (page m) = true → kind m = 2.
Proof. unfold kind. by intros -> ->. Qed.

(** A placement below [n] is [n] itself or has [n] among its layouts,
    right after the layouts above [n]. *)
Lemma located_layouts (n : RouteNode) (anc : list RouteNode) (m : Match) :
  m ∈ located anc n →
  m = mkMatch anc n ∨ ∃ rest, layouts m = anc ++ n :: rest.
Proof.
  revert anc.
  induction n as [q c e s | q c e s kids IH] using RouteNode_tree_ind;
    intros anc; simpl.
  - intros [-> | Hm]%elem_of_cons; [by left | by apply elem_of_nil in Hm].
  - intros [-> | Hm]%elem_of_cons; [by left | right].
    apply list_elem_of_bind in Hm as (k & Hm & Hk).
    rewrite Forall_forall in IH.
    destruct (IH k Hk _ Hm) as [-> | [rest Hrest]]; simpl.
    + exists []. done.
    + exists (k :: rest). by rewrite Hrest, <- app_assoc.
Qed.

(** Candidates are placements of leaves that match the path. *)
Lemma matches_under_located (p : string) (n : RouteNode)
    (anc : list RouteNode) (c : Match) :
  c ∈ matches_under p anc n →
  c ∈ located anc n ∧ routes (page c) = None ∧ accepts (page c) p = true.
Proof.
  revert anc.
  induction n as [q cr e s | q cr e s kids IH] using RouteNode_tree_ind;
    intros anc; simpl.
  - destruct (accepts (mkRouteNode _ _ _ _ _) p) eqn:Hacc.
    + intros ->%list_elem_of_singleton. simpl.
      split; [apply list_elem_of_here | done].
    + intros Hc. by apply elem_of_nil in Hc.
  - destruct (accepts (mkRouteNode _ _ _ _ _) p) eqn:Hacc.
    + intros (k & Hc & Hk)%list_elem_of_bind.
      rewrite Forall_forall in IH.
      destruct (IH k Hk _ Hc) as (Hloc & Hleaf & Hok).
      split; [| done].
      apply list_elem_of_further, list_elem_of_bind. eauto.
    + intros Hc. by apply elem_of_nil in Hc.
Qed.

(** A leaf placement that matches the path, under layouts that all match
    it, is a candidate. *)
Lemma located_matches_under (p : string) (n : RouteNode)
    (anc : list RouteNode) (m : Match) :
  m ∈ located anc n →
  routes (page m) = None → accepts (page m) p = true →
  (∀ a, a ∈ layouts m → accepts a p = true) →
  m ∈ matches_under p anc n.
Proof.
  revert anc.
  induction n as [q c e s | q c e s kids IH] using RouteNode_tree_ind;
    intros anc; simpl.
  - intros [-> | Hm]%elem_of_cons; [| by apply elem_of_nil in Hm].
    simpl. intros _ -> _. apply list_elem_of_here.
  - intros [-> | Hm]%elem_of_cons; [done |].
    intros Hleaf Hacc Hlay.
    apply list_elem_of_bind in Hm as (k & Hm & Hk).
    assert (Hn : accepts (mkRouteNode q c e s (Some kids)) p = true).
    { apply Hlay.
      destruct (located_layouts _ _ _ Hm) as [-> | [rest ->]]; simpl.
      - apply elem_of_app. right. apply list_elem_of_here.
      - rewrite <- app_assoc. apply elem_of_app. right. apply list_elem_of_here. }
    rewrite Hn. apply list_elem_of_bind. exists k. split; [| done].
    rewrite Forall_forall in IH. by apply IH.
Qed.

Lemma candidates_placements (t : list RouteNode) (p : string) (c : Match) :
  c ∈ candidates t p →
  c ∈ placements t ∧ routes (page c) = None ∧ accepts (page c) p = true.
Proof.
  unfold candidates, placements. intros (n & Hc & Hn)%list_elem_of_bind.
  destruct (matches_under_located _ _ _ _ Hc) as (Hloc & Hleaf & Hacc).
  split; [| done]. apply list_elem_of_bind. eauto.
Qed.

Lemma placements_candidates (t : list RouteNode) (p : string) (m : Match) :
  m ∈ placements t →
  routes (page m) = None → accepts (page m) p = true →
  (∀ a, a ∈ layouts m → accepts a p = true) →
  m ∈ candidates t p.
Proof.
  unfold candidates, placements. intros (n & Hm & Hn)%list_elem_of_bind ? ? ?.
  apply list_elem_of_bind. exists n. split; [| done].
  by apply located_matches_under.
Qed.

(** The placements of a table are its records, in the same order. *)
Lemma located_pages (n : RouteNode) (anc : list RouteNode) :
  page <$> located anc n = subtree n.
Proof.
  revert anc.
  induction n as [q c e s | q c e s kids IH] using RouteNode_tree_ind;
    intros anc; simpl; [done |].
  f_equal. generalize (anc ++ [mkRouteNode q c e s (Some kids)]). intros anc'.
  induction IH as [| k kids' Hk _ IHkids]; [done |].
  rewrite !bind_cons, fmap_app, Hk. f_equal. exact IHkids.
Qed.

Lemma placements_pages (t : list RouteNode) :
  page <$> placements t = all_nodes t.
Proof.
  unfold placements, all_nodes. induction t as [| n t IH]; [done |].
  by rewrite !bind_cons, fmap_app, located_pages, IH.
Qed.

(** A placement without layouts is a top-level record of the table. *)
Lemma placements_top_level (t : list RouteNode) (m : Match) :
  m ∈ placements t → layouts m = [] → page m ∈ t.
Proof.
  unfold placements. intros (n & Hm & Hn)%list_elem_of_bind Hlay.
  destruct (located_layouts _ _ _ Hm) as [-> | [rest Hrest]]; [done |].
  rewrite Hlay in Hrest. discriminate.
Qed.

Lemma NoDup_fmap_eq {A B} (f : A → B) (l : list A) (x y : A) :
  NoDup (f <$> l) → x ∈ l → y ∈ l → f x = f y → x = y.
Proof.
  induction l as [| a l IH]; simpl; [by intros _ ?%elem_of_nil |].
  intros [Hnotin Hnd]%NoDup_cons [-> | Hx]%elem_of_cons [-> | Hy]%elem_of_cons Heq;
    [done | | | by apply IH].
  - destruct Hnotin. rewrite Heq. by apply list_elem_of_fmap_2.
  - destruct Hnotin. rewrite <- Heq. by apply list_elem_of_fmap_2.
Qed.

(** What the executable check [well_placed] gives for one placement. *)
Lemma well_placed_elim (t : list RouteNode) (m : Match) :
  forallb well_placed (placements t) = true → m ∈ placements t →
  (routes (page m) = None →
     is_wildcard (page m) = true ∨ is_exact (page m) = true) ∧
  (is_exact (page m) = true →
     is_wildcard (page m) = false ∧ routes (page m) = None ∧
     ∀ a, a ∈ layouts m → accepts a (path (page m)) = true) ∧
  (is_wildcard (page m) = true → layouts m = []).
Proof.
  intros Hall Hm. pose proof (forallb_elem_of _ _ m Hall Hm) as Hwp.
  unfold well_placed in Hwp.
  apply andb_true_iff in Hwp as [[Hleaf Hreach]%andb_true_iff Hwild].
  split; [| split].
  - intros Hr. rewrite bool_decide_eq_true_2 in Hleaf by done.
    by apply orb_true_iff.
  - intros He. rewrite He in Hreach. unfold reachable in Hreach.
    apply andb_true_iff in Hreach as [[Hnw Hr]%andb_true_iff Hlay].
    apply negb_true_iff in Hnw. apply bool_decide_eq_true in Hr.
    split; [done |]. split; [done |].
    intros a Ha. by apply (forallb_elem_of _ _ a Hlay).
  - intros Hw. rewrite Hw in Hwild. apply Nat.eqb_eq in Hwild.
    unfold depth in Hwild. by apply nil_length_inv.
Qed.

(** *** Determinism and totality on well-formed tables *)

Lemma route_tables_well_formed (t : list RouteNode) :
  t ∈ route_tables → well_formed_table t.
Proof.
  revert t. apply in_route_tables.
  - split; [vm_compute; reflexivity |]. split; [compute_done |].
    eexists. split; [apply list_elem_of_lookup; by exists 16 |].
    split; reflexivity.
  - split; [vm_compute; reflexivity |]. split; [compute_done |].
    eexists. split; [apply list_elem_of_lookup; by exists 28 |].
    split; reflexivity.
Qed.

(** Resolving the path of an exact record yields that record, and every
    other candidate for the path is a wildcard. *)
Lemma resolve_exact_well_formed (t : list RouteNode) (m : Match) :
  well_formed_table t → m ∈ placements t → is_exact (page m) = true →
  resolve t (path (page m)) = Some m ∧
  ∀ c, c ∈ candidates t (path (page m)) →
       c = m ∨ is_wildcard (page c) = true.
Proof.
  intros (Hwp & Hnd & _) Hm He.
  destruct (well_placed_elim t m Hwp Hm) as (_ & Hreach & _).
  destruct (Hreach He) as (Hnw & Hleaf & Hlay).
  assert (Hacc : accepts (page m) (path (page m)) = true).
  { unfold accepts. rewrite Hnw, He. apply String.eqb_refl. }
  assert (Hcand : m ∈ candidates t (path (page m)))
    by by apply placements_candidates.
  assert (Hothers : ∀ c, c ∈ candidates t (path (page m)) →
                         c = m ∨ is_wildcard (page c) = true).
  { intros c Hc.
    destruct (candidates_placements _ _ _ Hc) as (Hcp & Hcleaf & Hcacc).
    destruct (well_placed_elim t c Hwp Hcp) as (Hkind & _ & _).
    destruct (is_wildcard (page c)) eqn:Hcw; [by right | left].
    destruct (Hkind Hcleaf) as [? | Hce]; [done |].
    unfold accepts in Hcacc. rewrite Hcw, Hce in Hcacc.
    apply String.eqb_eq in Hcacc.
    apply (NoDup_fmap_eq (λ m, path (page m)) _ c m Hnd);
      [by apply list_elem_of_filter .. | done]. }
  split; [| exact Hothers].
  destruct (resolve_some _ _ _ Hcand) as (r & Hr & Hrc & Hmax).
  rewrite Hr. destruct (Hothers r Hrc) as [-> | Hrw]; [done |].
  pose proof (Hmax m Hcand) as Hbeat.
  apply not_more_specific_spec in Hbeat.
  apply kind_wildcard in Hrw. rewrite (kind_exact m Hnw He) in Hbeat. lia.
Qed.

(** Resolution always produces a result: a candidate other than the
    wildcard when one matches, the top-level wildcard record otherwise. *)
Lemma resolve_total_well_formed (t : list RouteNode) (p : string) :
  well_formed_table t →
  ∃ r, resolve t p = Some r ∧ r ∈ candidates t p ∧
       ((path (page r) ≠ "*" ∧ ∃ c, c ∈ candidates t p ∧ path (page c) ≠ "*") ∨
        (path (page r) = "*" ∧ layouts r = [] ∧ page r ∈ t ∧
         ∀ c, c ∈ candidates t p → path (page c) = "*")).
Proof.
  intros (Hwp & _ & w & Hw & Hwild & Hwleaf).
  assert (Hcand : mkMatch [] w ∈ candidates t p).
  { apply list_elem_of_bind. exists w. split; [| done].
    destruct w as [q c e s r]. simpl in Hwleaf. subst r. simpl.
    unfold accepts. rewrite Hwild. apply list_elem_of_here. }
  destruct (resolve_some _ _ _ Hcand) as (r & Hr & Hrc & Hmax).
  exists r. split; [done |]. split; [done |].
  destruct (is_wildcard (page r)) eqn:Hrw.
  - right. split; [by apply is_wildcard_spec |].
    destruct (candidates_placements _ _ _ Hrc) as (Hrp & _ & _).
    destruct (well_placed_elim t r Hwp Hrp) as (_ & _ & Htop).
    split; [by apply Htop |].
    split; [apply placements_top_level; [done | by apply Htop] |].
    intros c Hc. apply is_wildcard_spec, kind_wildcard.
    pose proof (Hmax c Hc) as Hbeat. apply not_more_specific_spec in Hbeat.
    apply kind_wildcard in Hrw. lia.
  - left. assert (path (page r) ≠ "*").
    { intros Heq%is_wildcard_spec. congruence. }
    eauto.
Qed.

(** C1 — exact-match determinism.  For every record marked [exact: true] in
    either route table, at any depth, resolving the record's own path under
    the matching policy of section 4.1 returns that record with its chain of
    layouts, and no other record than the wildcard even matches the path. *)
Theorem resolve_exact_record (t : list RouteNode) (m : Match) :
  t ∈ route_tables → m ∈ placements t → exact (page m) = Some true →
  resolve t (path (page m)) = Some m ∧
  ∀ c, c ∈ candidates t (path (page m)) → c = m ∨ path (page c) = "*".
Proof.
  intros Ht Hm He.
  assert (Hexact : is_exact (page m) = true) by (unfold is_exact; by rewrite He).
  destruct (resolve_exact_well_formed t m (route_tables_well_formed t Ht) Hm Hexact)
    as [Hres Hothers].
  split; [exact Hres |].
  intros c Hc. destruct (Hothers c Hc) as [-> | Hw]; [by left | right].
  by apply is_wildcard_spec.
Qed.

Lemma resolve_exact_record_witness :
  ∃ m, placements routes_table !! 38 = Some m ∧
       path (page m) = "/docs/intro" ∧ (path <$> layouts m) = ["/docs"; "/docs"; "/docs"] ∧
       resolve routes_table "/docs/intro" = Some m.
Proof.
  eexists. split; [reflexivity |]. split; [reflexivity |]. split; [reflexivity |].
  match goal with
  | |- resolve _ _ = Some ?m =>
      assert (Hin : m ∈ placements routes_table)
        by (apply list_elem_of_lookup; exists 38; reflexivity);
      exact (proj1 (resolve_exact_record routes_table m
                      (list_elem_of_here _ _) Hin eq_refl))
  end.
Defined.

(** C2 — wildcard totality.  Over each route table resolution is total: for
    every input path it produces a result, which is a matching record other
    than the wildcard when there is one and otherwise the top-level record
    with path ['*']; it never ends without a match. *)
Theorem resolve_total (t : list RouteNode) (p : string) :
  t ∈ route_tables →
  ∃ r, resolve t p = Some r ∧ r ∈ candidates t p ∧
       ((path (page r) ≠ "*" ∧ ∃ c, c ∈ candidates t p ∧ path (page c) ≠ "*") ∨
        (path (page r) = "*" ∧ layouts r = [] ∧ page r ∈ t ∧
         ∀ c, c ∈ candidates t p → path (page c) = "*")).
Proof.
  intros Ht. apply resolve_total_well_formed. by apply route_tables_well_formed.
Qed.

Lemma resolve_total_witness :
  ∃ r, resolve routes_table "/docs/nonexistent" = Some r ∧
       r ∈ candidates routes_table "/docs/nonexistent".
Proof.
  destruct (resolve_total routes_table "/docs/nonexistent") as (r & Hr & Hc & _).
  - apply list_elem_of_here.
  - exists r. split; [exact Hr | exact Hc].
Defined.

(** ** Sidebar *)

Example sidebar_leaf_count : length (tutorialSidebar ≫= leaf_ids) = 20.
Proof. reflexivity. Qed.

Example walk_spec_scenario :
  sidebar_walker
    [Doc "intro";
     Category "API Reference" [Doc "api/overview"; Doc "api/createApp"]]
    "api/createApp"
  = Some {| ancestors := ["API Reference"];
            previous := Some (Doc "api/overview"); next := None |}.
Proof. reflexivity. Qed.

Example walk_top_level :
  sidebar_walker tutorialSidebar "contributing"
  = Some {| ancestors := [];
            previous := Some (Category "Tutorials" [
              Doc "tutorials/counter-app"; Doc "tutorials/todo-list";
              Doc "tutorials/global-theme"; Doc "tutorials/animation-basics"]);
            next := None |} ∧
  sidebar_walker tutorialSidebar "api/unknown" = None.
Proof. split; reflexivity. Qed.

(** [first_found] succeeds exactly when some element can be visited with
    success, provided success does not depend on the neighbours. *)
Lemma first_found_is_Some {A B} (visit : option A → option A → A → option B)
    (Q : A → Prop) (l : list A) (prev : option A) :
  Forall (λ x, ∀ pv nx, is_Some (visit pv nx x) ↔ Q x) l →
  is_Some (first_found visit prev l) ↔ ∃ x, x ∈ l ∧ Q x.
Proof.
  revert prev. induction l as [| x l IH]; intros prev Hall; simpl.
  - split; [by intros [? ?] | by intros (? & ?%elem_of_nil & _)].
  - apply Forall_cons in Hall as [Hx Hall].
    destruct (visit prev (head l) x) as [r |] eqn:Hv.
    + split; [| by eauto]. intros _. exists x.
      split; [apply list_elem_of_here |]. apply (Hx prev (head l)).
      rewrite Hv. by eexists.
    + rewrite (IH _ Hall). split.
      * intros (y & Hy & HQ). exists y. split; [by apply list_elem_of_further | done].
      * intros (y & [-> | Hy]%elem_of_cons & HQ); [| by eauto].
        apply (Hx prev (head l)) in HQ. rewrite Hv in HQ. by destruct HQ.
Qed.

Lemma walk_item_is_Some (target : string) (it : SidebarItem)
    (anc : list string) (prev nx : option SidebarItem) :
  is_Some (walk_item target anc prev nx it) ↔ target ∈ leaf_ids it.
Proof.
  revert anc prev nx.
  induction it as [id | label items IH] using SidebarItem_tree_ind;
    intros anc prev nx; simpl.
  - rewrite list_elem_of_singleton.
    destruct (String.eqb_spec id target) as [-> | Hne].
    + split; [done | by eexists].
    + split; [by intros [? ?] | congruence].
  - rewrite (first_found_is_Some _ (λ x, target ∈ leaf_ids x)).
    + rewrite list_elem_of_bind. split; intros (x & ? & ?); by exists x.
    + eapply Forall_impl; [exact IH |]. simpl. intros x Hx pv nx'. apply Hx.
Qed.

(** The walker locates exactly the content identifiers that occur at the
    leaves of the sidebar. *)
Lemma sidebar_walker_is_Some (sidebar : list SidebarItem) (target : string) :
  is_Some (sidebar_walker sidebar target) ↔ target ∈ sidebar ≫= leaf_ids.
Proof.
  unfold sidebar_walker.
  rewrite (first_found_is_Some _ (λ x, target ∈ leaf_ids x)).
  - rewrite list_elem_of_bind. split; intros (x & ? & ?); by exists x.
  - apply Forall_forall. intros x _ pv nx. apply walk_item_is_Some.
Qed.

(** C6 — sidebar well-formedness.  Every category node of [tutorialSidebar]
    has a non-empty [items] list, and no content identifier occurs twice
    among the leaves of its subtree. *)
Theorem sidebar_well_formed (label : string) (items : list SidebarItem) :
  Category label items ∈ tutorialSidebar ≫= categories →
  items ≠ [] ∧ NoDup (leaf_ids (Category label items)).
Proof.
  intros Hc.
  assert (Hall : forallb category_ok (tutorialSidebar ≫= categories) = true)
    by (vm_compute; reflexivity).
  pose proof (forallb_elem_of _ _ _ Hall Hc) as Hok. simpl in Hok.
  apply andb_true_iff in Hok as [Hne Hnd].
  apply negb_true_iff, bool_decide_eq_false in Hne.
  apply bool_decide_eq_true in Hnd. done.
Qed.

Lemma sidebar_well_formed_witness :
  NoDup (leaf_ids (Category "API Reference" [
    Doc "api/overview"; Doc "api/createApp"; Doc "api/createComponent";
    Doc "api/useRefraction"; Doc "api/useEffect"; Doc "api/useOptic";
    Doc "api/useFlash"; Doc "api/useLens"])).
Proof.
  refine (proj2 (sidebar_well_formed "API Reference" _ _)).
  apply list_elem_of_lookup. exists 1. reflexivity.
Defined.

(** C7 — the sidebar tree walker on [tutorialSidebar].  For the leaf
    ['api/createApp'] it returns the ancestor chain [['API Reference']], and
    ['api/overview'] is among the leaf's immediate siblings (it is the
    previous entry; ['api/createComponent'] is the next one). *)
Theorem walk_createApp :
  ∃ loc, sidebar_walker tutorialSidebar "api/createApp" = Some loc ∧
         ancestors loc = ["API Reference"] ∧
         Doc "api/overview" ∈ siblings loc ∧
         previous loc = Some (Doc "api/overview") ∧
         next loc = Some (Doc "api/createComponent").
Proof.
  eexists. split; [reflexivity |]. split; [reflexivity |].
  split; [apply list_elem_of_here |]. split; reflexivity.
Qed.

(** ** Site configuration *)

(** C8 — the broken-link policy differs by configuration file: the main
    configuration sets [onBrokenLinks] to ['throw'] (the build fails), the
    alternate variant sets it to ['warn'] (log and continue). *)
Theorem broken_links_policy :
  onBrokenLinks config = "throw" ∧
  onBrokenLinks config_variant = "warn" ∧
  severity_of_string (onBrokenLinks config) = Some Throw ∧
  severity_of_string (onBrokenLinks config_variant) = Some Warn ∧
  onBrokenLinks config ≠ onBrokenLinks config_variant.
Proof. repeat split; done. Qed.

(** ** Front-matter and routes *)

Lemma has_exact_record_spec (t : list RouteNode) (p : string) :
  has_exact_record t p = true ↔
  ∃ r, r ∈ t ∧ path r = p ∧ exact r = Some true.
Proof.
  unfold has_exact_record. rewrite existsb_exists. split.
  - intros (r & Hr & [Hp He]%andb_true_iff). exists r.
    apply list_elem_of_In in Hr. apply String.eqb_eq in Hp.
    apply bool_decide_eq_true in He. done.
  - intros (r & Hr & Hp & He). exists r. split; [by apply list_elem_of_In |].
    apply andb_true_iff. split; [by apply String.eqb_eq |].
    by apply bool_decide_eq_true.
Qed.

Example slug_of_performance_guide :
  (route_path blog_root <$> slug performance_optimization_guide)
  = Some "/blog/performance-optimization-guide" ∧
  has_exact_record routes_table "/blog/performance-optimization-guide" = true.
Proof. split; reflexivity. Qed.

(** C5 — the front-matter slug reaches the route table.  The blog post
    declares [slug: introducing-refract]; placed under the blog content root
    this is the path ['/blog/introducing-refract'], and each generated route
    table contains a record with that path and [exact: true]. *)
Theorem slug_round_trip (t : list RouteNode) :
  t ∈ route_tables →
  slug introducing_refract = Some "introducing-refract" ∧
  route_path blog_root "introducing-refract" = "/blog/introducing-refract" ∧
  ∃ r, r ∈ t ∧ path r = "/blog/introducing-refract" ∧ exact r = Some true.
Proof.
  intros Ht. split; [reflexivity |]. split; [reflexivity |].
  apply has_exact_record_spec. revert t Ht.
  apply in_route_tables; reflexivity.
Qed.

Lemma slug_round_trip_witness :
  ∃ r, r ∈ routes_table ∧ path r = "/blog/introducing-refract" ∧
       exact r = Some true.
Proof.
  exact (proj2 (proj2 (slug_round_trip routes_table (list_elem_of_here _ _)))).
Defined.

(** * Further properties of the committed data and code *)

(** ** The route tables *)

Lemma in_all_route_tables (Q : list RouteNode → Prop) :
  Q routes_table → Q routes_table_variant → Q routes_table_debug →
  ∀ t, t ∈ all_route_tables → Q t.
Proof.
  intros Ha Hb Hc t Ht. unfold all_route_tables in Ht.
  apply elem_of_app in Ht as [Ht | Ht].
  - by apply (in_route_tables Q).
  - by apply list_elem_of_singleton in Ht as ->.
Qed.

Lemma page_exists_spec (t : list RouteNode) (p : string) :
  page_exists t p = true ↔
  ∃ n, n ∈ all_nodes t ∧ path n = p ∧ exact n = Some true.
Proof.
  unfold page_exists. rewrite existsb_exists. split.
  - intros (n & Hn & [Hp He]%andb_true_iff). exists n.
    apply list_elem_of_In in Hn. apply String.eqb_eq in Hp.
    split; [done |]. split; [done |].
    unfold is_exact in He. by destruct (exact n) as [[|] |].
  - intros (n & Hn & Hp & He). exists n. split; [by apply list_elem_of_In |].
    apply andb_true_iff. split; [by apply String.eqb_eq |].
    unfold is_exact. by rewrite He.
Qed.

Lemma component_ok_spec (n : RouteNode) :
  component_ok n = true →
  cc_path (component n) = path n ∧
  (cc_hash (component n) = None ↔ path n = "*").
Proof.
  unfold component_ok. intros [Hp Hh]%andb_true_iff.
  apply String.eqb_eq in Hp. split; [done |].
  rewrite <- is_wildcard_spec. destruct (is_wildcard n).
  - apply bool_decide_eq_true in Hh. done.
  - apply bool_decide_eq_true in Hh. split; [| done].
    intros Hnone. rewrite Hnone in Hh. by destruct Hh.
Qed.

Lemma single_wildcard_spec (t : list RouteNode) :
  single_wildcard t = true →
  ∃ front w, t = front ++ [w] ∧ path w = "*" ∧
             ∀ n, n ∈ all_nodes front → path n ≠ "*".
Proof.
  unfold single_wildcard. destruct (reverse t) as [| w front] eqn:Hrev; [done |].
  intros [Hw Hfront]%andb_true_iff.
  exists (reverse front), w. split; [| split].
  - rewrite <- (reverse_involutive t), Hrev. by rewrite reverse_cons.
  - by apply is_wildcard_spec.
  - intros n Hn Hstar%is_wildcard_spec.
    pose proof (forallb_elem_of _ _ n Hfront Hn) as Hneg. simpl in Hneg.
    by rewrite Hstar in Hneg.
Qed.

(** X1 — the third route table keeps the invariants of the other two: the
    paths of its exact records are pairwise distinct; every record but the
    wildcard has the page/layout shape and the wildcard is bare; and every
    child path extends the path of its parent. *)
Theorem debug_table_invariants :
  NoDup (path <$> leaf_records routes_table_debug) ∧
  ∀ n, n ∈ all_nodes routes_table_debug →
       (path n ≠ "*" → shape_invariant n) ∧
       (path n = "*" → routes n = None ∧ exact n = None) ∧
       (∀ k, k ∈ children n → String.prefix (path n) (path k) = true).
Proof.
  split; [compute_done |]. intros n Hn.
  assert (Hok : forallb record_ok (all_nodes routes_table_debug) = true)
    by (vm_compute; reflexivity).
  pose proof (forallb_elem_of _ _ n Hok Hn) as Hrec. unfold record_ok in Hrec.
  apply andb_true_iff in Hrec as [Hshape Hnest].
  split; [| split].
  - intros Hne. apply shape_ok_spec.
    destruct (is_wildcard n) eqn:Hw; [| done].
    by apply is_wildcard_spec in Hw.
  - intros Hw%is_wildcard_spec. rewrite Hw in Hshape. by apply bare_record_spec.
  - intros k Hk. by apply (forallb_elem_of _ _ k Hnest).
Qed.

Lemma debug_table_invariants_witness :
  ∃ n, all_nodes routes_table_debug !! 21 = Some n ∧ path n = "/docs" ∧
       shape_invariant n.
Proof.
  eexists. split; [reflexivity |]. split; [reflexivity |].
  eapply (proj2 debug_table_invariants).
  - apply list_elem_of_lookup. exists 21. reflexivity.
  - discriminate.
Defined.

(** X2 — in each of the three tables the wildcard is the last top-level
    record and the only record with path ['*'] at any depth. *)
Theorem wildcard_is_unique (t : list RouteNode) :
  t ∈ all_route_tables →
  ∃ front w, t = front ++ [w] ∧ path w = "*" ∧
             ∀ n, n ∈ all_nodes front → path n ≠ "*".
Proof.
  intros Ht. apply single_wildcard_spec. revert t Ht.
  apply in_all_route_tables; vm_compute; reflexivity.
Qed.

Lemma wildcard_is_unique_witness :
  ∃ front w, routes_table_debug = front ++ [w] ∧ path w = "*" ∧
             length front = 23.
Proof.
  destruct (wildcard_is_unique routes_table_debug) as (front & w & Ht & Hw & _).
  - apply elem_of_app. right. apply list_elem_of_here.
  - exists front, w. split; [exact Ht |]. split; [exact Hw |].
    apply (f_equal length) in Ht. rewrite length_app in Ht. simpl in Ht.
    change (length routes_table_debug) with 24 in Ht. lia.
Defined.

(** X3 — in each of the three tables every record's component reference is
    created for the record's own path, and the hash argument is missing on
    the wildcard record only. *)
Theorem component_matches_path (t : list RouteNode) (n : RouteNode) :
  t ∈ all_route_tables → n ∈ all_nodes t →
  cc_path (component n) = path n ∧
  (cc_hash (component n) = None ↔ path n = "*").
Proof.
  intros Ht Hn. apply component_ok_spec.
  assert (Hok : forallb component_ok (all_nodes t) = true).
  { clear Hn. revert t Ht. apply in_all_route_tables; vm_compute; reflexivity. }
  by apply (forallb_elem_of _ _ n Hok).
Qed.

Lemma component_matches_path_witness :
  ∃ n, all_nodes routes_table_debug !! 21 = Some n ∧ path n = "/docs" ∧
       cc_path (component n) = "/docs".
Proof.
  eexists. split; [reflexivity |]. split; [reflexivity |].
  eapply (component_matches_path routes_table_debug).
  - apply elem_of_app. right. apply list_elem_of_here.
  - apply list_elem_of_lookup. exists 21. reflexivity.
Defined.

(** X4 — the variant table extends the current one: every exact record of
    [routes_table] has a counterpart in [routes_table_variant] with the same
    path and the same [sidebar] key, and with the same component hash for
    every page but the blog index ['/blog']. *)
Theorem variant_extends_table (n : RouteNode) :
  n ∈ leaf_records routes_table →
  ∃ n', n' ∈ leaf_records routes_table_variant ∧
        path n' = path n ∧ sidebar n' = sidebar n ∧
        (path n ≠ "/blog" → component n' = component n).
Proof.
  intros Hn.
  assert (Hall : forallb (λ m, kept_in routes_table_variant m && component_ok m)
                   (leaf_records routes_table) = true)
    by (vm_compute; reflexivity).
  pose proof (forallb_elem_of _ _ n Hall Hn) as Hk. simpl in Hk.
  apply andb_true_iff in Hk as [Hk Hcn]. unfold kept_in in Hk.
  apply existsb_exists in Hk as (n' & Hn' & Hk).
  apply andb_true_iff in Hk as [[Hp Hs]%andb_true_iff Hc].
  apply list_elem_of_In in Hn'. apply String.eqb_eq in Hp.
  apply bool_decide_eq_true in Hs.
  exists n'. split; [done |]. split; [done |]. split; [done |].
  intros Hne. apply orb_true_iff in Hc as [Hb%String.eqb_eq | Hh]; [done |].
  apply bool_decide_eq_true in Hh.
  assert (Hcn' : component_ok n' = true).
  { assert (Hv : forallb component_ok (leaf_records routes_table_variant) = true)
      by (vm_compute; reflexivity).
    by apply (forallb_elem_of _ _ n' Hv). }
  apply component_ok_spec in Hcn as [Hcp _].
  apply component_ok_spec in Hcn' as [Hcp' _].
  destruct (component n) as [cp ch], (component n') as [cp' ch']. simpl in *.
  congruence.
Qed.

Lemma variant_extends_table_witness :
  ∃ n n', leaf_records routes_table !! 2 = Some n ∧
          path n = "/blog/introducing-refract" ∧
          n' ∈ leaf_records routes_table_variant ∧ component n' = component n.
Proof.
  eexists.
  match goal with
  | |- ∃ n', _ !! _ = Some ?n ∧ _ =>
      destruct (variant_extends_table n) as (n' & Hn' & _ & _ & Hc);
        [apply list_elem_of_lookup; exists 2; reflexivity |];
      exists n'; split; [reflexivity |]; split; [reflexivity |];
      split; [exact Hn' | apply Hc; discriminate]
  end.
Defined.

(** ** Sidebar, navigation and route tables *)

Lemma existsb_elem_of {A} (f : A → bool) (l : list A) :
  existsb f l = true ↔ ∃ x, x ∈ l ∧ f x = true.
Proof.
  rewrite existsb_exists. split; intros (x & Hx & Hf); exists x;
    (split; [by apply list_elem_of_In | done]).
Qed.

Lemma is_exact_spec (n : RouteNode) : is_exact n = true ↔ exact n = Some true.
Proof. unfold is_exact. destruct (exact n) as [[|] |]; split; done. Qed.

(** X5 — every content identifier listed in [tutorialSidebar] has a page:
    each of the three tables holds an exact record with the identifier's
    path under ['/docs/'], attached to the sidebar by its [sidebar] key. *)
Theorem sidebar_leaves_have_routes (t : list RouteNode) (id : string) :
  t ∈ all_route_tables → id ∈ tutorialSidebar ≫= leaf_ids →
  ∃ n, n ∈ all_nodes t ∧ path n = doc_path id ∧ exact n = Some true ∧
       sidebar n = Some "tutorialSidebar".
Proof.
  intros Ht Hid.
  assert (Hall : forallb (doc_in_sidebar t "tutorialSidebar")
                   (tutorialSidebar ≫= leaf_ids) = true).
  { clear Hid. revert t Ht. apply in_all_route_tables; vm_compute; reflexivity. }
  pose proof (forallb_elem_of _ _ id Hall Hid) as Hdoc.
  apply existsb_elem_of in Hdoc as (n & Hn & Hdoc).
  apply andb_true_iff in Hdoc as [[Hp He]%andb_true_iff Hs].
  exists n. split; [done |]. split; [by apply String.eqb_eq |].
  split; [by apply is_exact_spec | by apply bool_decide_eq_true in Hs].
Qed.

Lemma sidebar_leaves_have_routes_witness :
  ∃ n, n ∈ all_nodes routes_table_debug ∧ path n = "/docs/api/createApp" ∧
       sidebar n = Some "tutorialSidebar".
Proof.
  destruct (sidebar_leaves_have_routes routes_table_debug "api/createApp")
    as (n & Hn & Hp & _ & Hs).
  - apply elem_of_app. right. apply list_elem_of_here.
  - apply list_elem_of_lookup. exists 8. reflexivity.
  - exists n. split; [exact Hn |]. split; [exact Hp | exact Hs].
Defined.

(** X6 — the [sidebar] key of route records.  In each of the three tables a
    record with a [sidebar] key is an exact page, its key names a sidebar
    defined in [sidebars.js], and its path is the path of a content
    identifier listed in [tutorialSidebar] or of ['api/createOptic'], which
    the sidebar does not list; in the third table it is always a listed
    identifier. *)
Theorem sidebar_keys_are_listed (t : list RouteNode) (n : RouteNode) (sb : string) :
  t ∈ all_route_tables → n ∈ all_nodes t → sidebar n = Some sb →
  sb ∈ sidebar_names ∧ exact n = Some true ∧
  (∃ id, path n = doc_path id ∧
         (id ∈ tutorialSidebar ≫= leaf_ids ∨
          (id = "api/createOptic" ∧ t ≠ routes_table_debug))).
Proof.
  intros Ht Hn Hsb.
  assert (Hall :
    forallb (sidebar_key_ok ("api/createOptic" :: (tutorialSidebar ≫= leaf_ids)))
      (all_nodes t) = true ∧
    (t = routes_table_debug →
     forallb (sidebar_key_ok (tutorialSidebar ≫= leaf_ids)) (all_nodes t) = true)).
  { clear Hn. revert t Ht. apply in_all_route_tables;
      (split; [vm_compute; reflexivity |]); try discriminate.
    intros _. vm_compute. reflexivity. }
  destruct Hall as [Hall Hdebug].
  pose proof (forallb_elem_of _ _ n Hall Hn) as Hok.
  unfold sidebar_key_ok in Hok. rewrite Hsb in Hok.
  apply andb_true_iff in Hok as [[Hname He]%andb_true_iff Hid].
  apply bool_decide_eq_true in Hname. apply is_exact_spec in He.
  split; [done |]. split; [done |].
  apply existsb_elem_of in Hid as (id & Hid & Hp%String.eqb_eq).
  apply elem_of_cons in Hid as [-> | Hid]; [| by eauto].
  assert (Hcase : t = routes_table_debug ∨ t ≠ routes_table_debug).
  { clear -Ht. revert t Ht. apply in_all_route_tables;
      [right; discriminate | right; discriminate | by left]. }
  destruct Hcase as [Heq | Hne]; [| by eauto].
  pose proof (forallb_elem_of _ _ n (Hdebug Heq) Hn) as Hok'.
  unfold sidebar_key_ok in Hok'. rewrite Hsb in Hok'.
  apply andb_true_iff in Hok' as [_ Hid'].
  apply existsb_elem_of in Hid' as (id' & Hid' & Hp'%String.eqb_eq).
  exists id'. split; [done | by left].
Qed.

Lemma sidebar_keys_are_listed_witness :
  ∃ n, all_nodes routes_table !! 22 = Some n ∧
       path n = "/docs/api/createOptic" ∧ exact n = Some true.
Proof.
  eexists. split; [reflexivity |]. split; [reflexivity |].
  eapply (sidebar_keys_are_listed routes_table _ "tutorialSidebar").
  - apply elem_of_app. left. apply list_elem_of_here.
  - apply list_elem_of_lookup. exists 22. reflexivity.
  - reflexivity.
Defined.

Example internal_links_of_configs :
  internal_links themeConfig =
    ["/docs/api/overview"; "/blog"; "/docs/getting-started";
     "/docs/api/overview"; "/docs/tutorials/counter-app"; "/blog"] ∧
  internal_links themeConfig_variant =
    ["/docs/intro"; "/docs/api"; "/blog"; "/docs/getting-started";
     "/docs/api"; "/docs/tutorials/getting-started"; "/blog"].
Proof. split; reflexivity. Qed.

(** X7 — the main configuration, which fails the build on a broken link,
    has none in its navigation: every internal link target of its navbar and
    footer is the path of an exact record in each of the three tables. *)
Theorem config_links_resolve (t : list RouteNode) (l : string) :
  t ∈ all_route_tables → l ∈ internal_links themeConfig →
  ∃ n, n ∈ all_nodes t ∧ path n = l ∧ exact n = Some true.
Proof.
  intros Ht Hl. apply page_exists_spec.
  assert (Hall : forallb (page_exists t) (internal_links themeConfig) = true).
  { clear Hl. revert t Ht. apply in_all_route_tables; vm_compute; reflexivity. }
  by apply (forallb_elem_of _ _ l Hall).
Qed.

Lemma config_links_resolve_witness :
  ∃ n, n ∈ all_nodes routes_table_debug ∧
       path n = "/docs/tutorials/counter-app" ∧ exact n = Some true.
Proof.
  apply (config_links_resolve routes_table_debug).
  - apply elem_of_app. right. apply list_elem_of_here.
  - apply list_elem_of_lookup. exists 4. reflexivity.
Defined.

(** X8 — the alternate configuration, which only warns on a broken link:
    every internal link target of its navbar and footer has an exact record
    in the first two tables, while the third table lacks a record exactly
    for ['/docs/api'] and ['/docs/tutorials/getting-started']. *)
Theorem config_variant_links (l : string) :
  l ∈ internal_links themeConfig_variant →
  (∀ t, t ∈ route_tables →
        ∃ n, n ∈ all_nodes t ∧ path n = l ∧ exact n = Some true) ∧
  (page_exists routes_table_debug l = false ↔
   l = "/docs/api" ∨ l = "/docs/tutorials/getting-started").
Proof.
  intros Hl. split.
  - intros t Ht. apply page_exists_spec.
    assert (Hall : forallb (page_exists t) (internal_links themeConfig_variant) = true).
    { revert t Ht. apply in_route_tables; vm_compute; reflexivity. }
    by apply (forallb_elem_of _ _ l Hall).
  - assert (Hcases : l ∈ ["/docs/intro"; "/docs/api"; "/blog";
                          "/docs/getting-started"; "/docs/api";
                          "/docs/tutorials/getting-started"; "/blog"]) by exact Hl.
    repeat (apply elem_of_cons in Hcases as [-> | Hcases]);
      [.. | by apply elem_of_nil in Hcases];
      (split; [intros Hmiss | intros [Heq | Heq]]);
      solve [ by left | by right | discriminate Heq | vm_compute; reflexivity
            | vm_compute in Hmiss; discriminate Hmiss ].
Qed.

Lemma config_variant_links_witness :
  page_exists routes_table_debug "/docs/api" = false ∧
  page_exists routes_table "/docs/api" = true.
Proof.
  assert (Hl : "/docs/api" ∈ internal_links themeConfig_variant)
    by (apply list_elem_of_lookup; exists 1; reflexivity).
  destruct (config_variant_links "/docs/api" Hl) as [Hyes Hno].
  split; [apply Hno; by left |]. apply page_exists_spec, Hyes.
  apply list_elem_of_here.
Defined.

(** X9 — every navbar item of type [docSidebar], in either configuration,
    refers to a sidebar that [sidebars.js] defines. *)
Theorem navbar_sidebars_defined (tc : ThemeConfig) (sb : string) :
  tc ∈ [themeConfig; themeConfig_variant] → sb ∈ navbar_sidebars tc →
  ∃ entries, (sb, entries) ∈ sidebars.
Proof.
  intros Htc Hsb.
  assert (Hin : sb ∈ sidebar_names).
  { apply elem_of_cons in Htc as [-> | Htc].
    - apply list_elem_of_singleton in Hsb as ->. apply list_elem_of_here.
    - apply list_elem_of_singleton in Htc as ->. by apply elem_of_nil in Hsb. }
  unfold sidebar_names in Hin.
  apply list_elem_of_fmap in Hin as ([name entries] & -> & Hin). eauto.
Qed.

Lemma navbar_sidebars_defined_witness :
  ∃ entries, ("tutorialSidebar", entries) ∈ sidebars.
Proof.
  apply (navbar_sidebars_defined themeConfig).
  - apply list_elem_of_here.
  - apply list_elem_of_here.
Defined.

(** ** Blog posts and tag pages *)

Lemma strip_prefix_app (pat rest : string) :
  strip_prefix pat (String.append pat rest) = Some rest.
Proof.
  induction pat as [| a pat IH]; [done |].
  rewrite string_append_cons. simpl. by rewrite Ascii.eqb_refl.
Qed.

Example tags_of_posts :
  blog_posts ≫= tags =
    ["announcement"; "reactive"; "javascript"; "ui";
     "performance"; "optimization"; "best-practices"; "advanced"].
Proof. reflexivity. Qed.

(** X10 — every blog post has its pages in each of the three tables: an
    exact record for its slug under ['/blog/'], and for each of its tags an
    exact record under ['/blog/tags/']. *)
Theorem blog_posts_have_pages (t : list RouteNode) (fm : FrontMatter) :
  t ∈ all_route_tables → fm ∈ blog_posts →
  (∃ s n, slug fm = Some s ∧ n ∈ t ∧ path n = post_path s ∧
          exact n = Some true) ∧
  (∀ tag, tag ∈ tags fm →
          ∃ n, n ∈ t ∧ path n = tag_path tag ∧ exact n = Some true).
Proof.
  intros Ht Hfm.
  assert (Hall :
    forallb (λ fm, match slug fm with
                   | Some s => has_exact_record t (post_path s)
                   | None => false
                   end &&
                   forallb (λ tag, has_exact_record t (tag_path tag)) (tags fm))
      blog_posts = true).
  { clear Hfm. revert t Ht. apply in_all_route_tables; vm_compute; reflexivity. }
  pose proof (forallb_elem_of _ _ fm Hall Hfm) as Hok. simpl in Hok.
  apply andb_true_iff in Hok as [Hslug Htags]. split.
  - destruct (slug fm) as [s |]; [| done].
    apply has_exact_record_spec in Hslug as (n & Hn & Hp & He). by exists s, n.
  - intros tag Htag. apply has_exact_record_spec.
    by apply (forallb_elem_of _ _ tag Htags).
Qed.

Lemma blog_posts_have_pages_witness :
  ∃ n, n ∈ routes_table_debug ∧ path n = "/blog/tags/best-practices" ∧
       exact n = Some true.
Proof.
  refine (proj2 (blog_posts_have_pages routes_table_debug
                   performance_optimization_guide _ _) "best-practices" _).
  - apply elem_of_app. right. apply list_elem_of_here.
  - apply list_elem_of_further, list_elem_of_here.
  - apply list_elem_of_lookup. exists 2. reflexivity.
Defined.

(** X11 — no stray tag pages in the current and the third table: a
    top-level record whose path is a tag page under ['/blog/tags/'] belongs
    to a tag that one of the two blog posts declares.  (The variant table
    also has tag pages of the site template.) *)
Theorem tag_pages_are_declared (t : list RouteNode) (n : RouteNode) (tag : string) :
  t ∈ [routes_table; routes_table_debug] → n ∈ t → path n = tag_path tag →
  ∃ fm, fm ∈ blog_posts ∧ tag ∈ tags fm.
Proof.
  intros Ht Hn Hp.
  assert (Hall : forallb tag_page_declared t = true).
  { clear Hn. apply elem_of_cons in Ht as [-> | Ht]; [vm_compute; reflexivity |].
    apply list_elem_of_singleton in Ht as ->. vm_compute; reflexivity. }
  pose proof (forallb_elem_of _ _ n Hall Hn) as Hok.
  unfold tag_page_declared in Hok. rewrite Hp in Hok.
  unfold tag_path in Hok. rewrite strip_prefix_app in Hok.
  apply bool_decide_eq_true in Hok.
  apply list_elem_of_bind in Hok as (fm & Htag & Hfm). eauto.
Qed.

Lemma tag_pages_are_declared_witness :
  ∃ fm, fm ∈ blog_posts ∧ "ui" ∈ tags fm.
Proof.
  eapply (tag_pages_are_declared routes_table _ "ui").
  - apply list_elem_of_here.
  - apply list_elem_of_lookup. exists 12. reflexivity.
  - reflexivity.
Defined.

Example variant_has_template_tag :
  has_exact_record routes_table_variant (tag_path "docusaurus") = true ∧
  bool_decide ("docusaurus" ∈ blog_posts ≫= tags) = false.
Proof. split; vm_compute; reflexivity. Qed.

(** ** The favicon script *)

Lemma normalize_onto_app (stack l1 l2 : list string) :
  normalize_onto stack (l1 ++ l2) =
  normalize_onto (reverse (normalize_onto stack l1)) l2.
Proof.
  revert stack. induction l1 as [| s l1 IH]; intros stack; simpl.
  - by rewrite reverse_involutive.
  - destruct (String.eqb s "" || String.eqb s "."); [apply IH |].
    destruct (String.eqb s ".."); apply IH.
Qed.

Lemma normalize_onto_proper (stack l : list string) :
  Forall proper_segment l → normalize_onto stack l = reverse stack ++ l.
Proof.
  revert stack. induction l as [| s l IH]; intros stack Hl; simpl.
  - by rewrite app_nil_r.
  - apply Forall_cons in Hl as [(Hne & Hdot & Hup) Hl].
    apply String.eqb_neq in Hne, Hdot, Hup. rewrite Hne, Hdot, Hup. simpl.
    rewrite (IH _ Hl), reverse_cons, <- app_assoc. done.
Qed.

(** Joining a file below ['../static/img'] to any directory. *)
Lemma path_join_static_img (dirname : Path) (name : string) :
  split_path name = [name] → proper_segment name →
  path_join dirname (String.append "../static/img/" name) =
  normalize_onto [] (dirname ++ [".."]) ++ ["static"; "img"; name].
Proof.
  intros Hsplit (Hne & Hdot & Hup). unfold path_join.
  assert (Hsegs : split_path (String.append "../static/img/" name)
                  = [".."; "static"; "img"] ++ split_path name).
  { unfold split_path. simpl. done. }
  rewrite Hsegs, Hsplit.
  change ([".."; "static"; "img"] ++ [name]) with ([".."] ++ ["static"; "img"; name]).
  rewrite app_assoc, normalize_onto_app. simpl.
  apply String.eqb_neq in Hne, Hdot, Hup. rewrite Hne, Hdot, Hup. simpl.
  rewrite !reverse_cons, reverse_involutive, <- !app_assoc. done.
Qed.

(** X12 — where the script reads and writes.  Run from a directory
    [parent/d], the source is [parent/static/img/logo.svg] and the
    destination [parent/static/img/favicon.ico]: both lie in the same
    directory beside the script's directory. *)
Theorem favicon_paths (parent : Path) (d : string) :
  Forall proper_segment (parent ++ [d]) →
  sourcePath (parent ++ [d]) = parent ++ ["static"; "img"; "logo.svg"] ∧
  destPath (parent ++ [d]) = parent ++ ["static"; "img"; "favicon.ico"].
Proof.
  intros Hproper.
  assert (Hbase : normalize_onto [] ((parent ++ [d]) ++ [".."]) = parent).
  { rewrite normalize_onto_app, (normalize_onto_proper _ _ Hproper). simpl.
    rewrite reverse_app. simpl. by rewrite reverse_involutive. }
  unfold sourcePath, destPath.
  change "../static/img/logo.svg" with (String.append "../static/img/" "logo.svg").
  change "../static/img/favicon.ico" with (String.append "../static/img/" "favicon.ico").
  rewrite !path_join_static_img, Hbase; [done | done | | done |];
    repeat split; discriminate.
Qed.

Lemma favicon_paths_witness :
  sourcePath ["site"; "scripts"] = ["site"; "static"; "img"; "logo.svg"] ∧
  destPath ["site"; "scripts"] = ["site"; "static"; "img"; "favicon.ico"].
Proof.
  apply (favicon_paths ["site"] "scripts").
  repeat constructor; discriminate.
Defined.







(** ** The home page components *)

Lemma imap_keyed_keys {A} (h : A → Element) (l : list A) (k : nat) :
  key_of <$> imap (λ idx x, Keyed (k + idx) (h x)) l = Some <$> seq k (length l).
Proof.
  revert k. induction l as [| x l IH]; intros k; [done |].
  rewrite imap_cons, fmap_cons. cbn [length seq key_of].
  rewrite fmap_cons, Nat.add_0_r. f_equal.
  rewrite <- (IH (S k)). f_equal. apply imap_ext. intros i y _. simpl.
  f_equal. lia.
Qed.

Lemma imap_bind_links {A} (g : nat → A → Element) (targets : A → list string)
    (l : list A) :
  (∀ i x, links_of (g i x) = targets x) →
  imap g l ≫= links_of = l ≫= targets.
Proof.
  intros Hg. revert g Hg. induction l as [| x l IH]; intros g Hg; [done |].
  rewrite imap_cons, !bind_cons, Hg. f_equal. apply IH.
  intros i y. apply Hg.
Qed.

(** X16 — rendering a list of feature cards, whatever the list: there is
    one card per feature, the cards carry the keys [0, 1, 2, ...] in order,
    so no two siblings share a key, and the links of each card are those of
    its description followed by one link to the [link] of its feature, in
    the order of the list. *)
Theorem feature_cards_render (styles : string → string)
    (features : list FeatureCards.FeatureProps) :
  length (FeatureCards.feature_columns styles features) = length features ∧
  key_of <$> FeatureCards.feature_columns styles features
    = Some <$> seq 0 (length features) ∧
  NoDup (key_of <$> FeatureCards.feature_columns styles features) ∧
  FeatureCards.feature_columns styles features ≫= links_of
    = features ≫= λ f, links_of (FeatureCards.description f)
                        ++ [FeatureCards.link f].
Proof.
  assert (Hkeys : key_of <$> FeatureCards.feature_columns styles features
                  = Some <$> seq 0 (length features)).
  { apply (imap_keyed_keys (FeatureCards.Feature styles) features 0). }
  split; [apply length_imap |]. split; [exact Hkeys |]. split.
  - rewrite Hkeys. apply (NoDup_fmap_2 _), NoDup_seq.
  - apply imap_bind_links. intros i x. simpl.
    by rewrite !app_nil_r.
Qed.

Lemma links_of_home_pages (styles fstyles : string → string) (siteConfig : Config) :
  home_pages styles fstyles siteConfig ≫= links_of =
    ["/docs/installation"; "/docs/getting-started"; "/docs/api/overview";
     "/docs/installation"; "/docs/getting-started"; "/docs/api/overview";
     "/docs/concepts/components"; "/docs/concepts/lenses"; "/docs/installation";
     "/docs/installation"; "/docs/tutorials/counter-app";
     "/docs/getting-started"; "/docs/api/overview";
     "/docs/getting-started"; "/docs/api/overview";
     "/docs/concepts/components"; "/docs/concepts/lenses"; "/docs/installation";
     "/docs/installation"; "/docs/tutorials/counter-app"].
Proof. reflexivity. Qed.

(** X17 — no broken link on the home page.  Whatever the site
    configuration and the CSS modules, every [Link] target rendered by
    either version of the home page, with either version of the features
    component, is the path of an exact record in each of the three tables. *)
Theorem home_page_links_resolve (styles fstyles : string → string)
    (siteConfig : Config) (pg : Element) (l : string) (t : list RouteNode) :
  pg ∈ home_pages styles fstyles siteConfig → l ∈ links_of pg →
  t ∈ all_route_tables →
  ∃ n, n ∈ all_nodes t ∧ path n = l ∧ exact n = Some true.
Proof.
  intros Hpg Hl Ht. apply page_exists_spec.
  assert (Hin : l ∈ home_pages styles fstyles siteConfig ≫= links_of)
    by (apply list_elem_of_bind; eauto).
  rewrite links_of_home_pages in Hin. clear Hpg Hl.
  assert (Hall : forallb (page_exists t)
    ["/docs/installation"; "/docs/getting-started"; "/docs/api/overview";
     "/docs/concepts/components"; "/docs/concepts/lenses";
     "/docs/tutorials/counter-app"] = true).
  { revert t Ht. apply in_all_route_tables; vm_compute; reflexivity. }
  apply (forallb_elem_of _ _ l Hall).
  repeat (apply elem_of_cons in Hin as [-> | Hin];
          [repeat first [apply list_elem_of_here | apply list_elem_of_further] |]).
  by apply elem_of_nil in Hin.
Qed.

Lemma home_page_links_resolve_witness :
  ∃ n, n ∈ all_nodes routes_table ∧ path n = "/docs/installation" ∧
       exact n = Some true.
Proof.
  apply (home_page_links_resolve (λ k, k) (λ k, k) config
           (HomePage.Home (λ k, k) config
              (HomepageFeatures.HomepageFeatures (λ k, k)))).
  - apply list_elem_of_here.
  - apply list_elem_of_here.
  - apply elem_of_app. left. apply list_elem_of_here.
Defined.

(** ** Documentation files and their pages *)

Example without_md_examples :
  without_md "api/overview.md" = "api/overview" ∧
  without_md "intro.md" = "intro" ∧ without_md "notes" = "notes".
Proof. repeat split; reflexivity. Qed.

(** X18 — every documentation file has its page in the first two tables:
    an exact record whose path is ['/docs/'] followed by the file's path
    without the [.md] extension; where a file declares an [id], it is the
    file's own name.  The third table lacks the pages of exactly three
    files, the three that declare an [id]. *)
Theorem doc_files_have_pages (f : string) (fm : FrontMatter) :
  (f, fm) ∈ doc_files →
  (∀ t, t ∈ route_tables →
        ∃ n, n ∈ all_nodes t ∧ path n = doc_path (without_md f) ∧
             exact n = Some true) ∧
  (page_exists routes_table_debug (doc_path (without_md f)) = false ↔
   is_Some (declared_id fm)) ∧
  (∀ id, declared_id fm = Some id →
         ends_with (String.append "/" id) (String.append "/" (without_md f)) = true).
Proof.
  intros Hf. split; [| split].
  - intros t Ht. apply page_exists_spec.
    assert (Hall : forallb (doc_file_ok t) doc_files = true).
    { revert t Ht. apply in_route_tables; vm_compute; reflexivity. }
    pose proof (forallb_elem_of _ _ _ Hall Hf) as Hok.
    by apply andb_true_iff in Hok as [Hpage _].
  - assert (Hall : forallb (λ f, bool_decide
               (page_exists routes_table_debug (doc_path (without_md f.1)) = false
                ↔ is_Some (declared_id f.2))) doc_files = true)
      by (vm_compute; reflexivity).
    pose proof (forallb_elem_of _ _ _ Hall Hf) as Hok. simpl in Hok.
    by apply bool_decide_eq_true in Hok.
  - intros id Hid.
    assert (Hall : forallb (doc_file_ok routes_table) doc_files = true)
      by (vm_compute; reflexivity).
    pose proof (forallb_elem_of _ _ _ Hall Hf) as Hok.
    apply andb_true_iff in Hok as [_ Hname]. simpl in Hname.
    by rewrite Hid in Hname.
Qed.

Lemma doc_files_have_pages_witness :
  page_exists routes_table_debug "/docs/api/createOptic" = false ∧
  page_exists routes_table "/docs/api/createOptic" = true.
Proof.
  destruct (doc_files_have_pages "api/createOptic.md"
              [("id", YStr "createOptic"); ("title", YStr "createOptic")])
    as (Hpages & Hdebug & _).
  - apply list_elem_of_lookup. exists 8. reflexivity.
  - split; [apply Hdebug; by eexists |].
    apply page_exists_spec, Hpages. apply list_elem_of_here.
Defined.
